(** * XVIZStreamLoader: request windows, seek, message dispatch and
      connection retry

    A shallow embedding of
    [modules/core/src/loaders/xviz-stream-loader.js].

    Numbers.  Timestamps and durations are JavaScript numbers.  The
    embedding takes them on the integer grid ([Z]), where the double
    arithmetic the loader performs ([+], [-], [Math.min], [Math.max] and
    comparisons) is exact; a value that is [undefined], [null] or [NaN]
    is [Undef].  Infinite values are not represented.  Since a double
    sum or difference is rounded, the properties of windows below give
    a duration as the one difference the code computes,
    [max(0, end - timestamp)], and bound [timestamp] and [end]
    separately; none of them goes through [timestamp + duration].

    Objects.  The loader instance is a record that is threaded through
    every method; what a method does to the outside world (events
    emitted, messages handed to the XVIZ controller, sockets built or
    closed) is appended to the [log] field of that record, oldest entry
    first. *)

From Stdlib Require Import ZArith List String Bool Lia.
Import ListNotations.

Local Open Scope string_scope.
Local Open Scope list_scope.
Local Open Scope Z_scope.

(** ** JavaScript numbers *)

Inductive jsnum : Type :=
| Undef
| Num (z : Z).

(** [Number.isFinite(v)] *)
Definition isFinite (v : jsnum) : bool :=
  match v with Num _ => true | Undef => false end.

(** Truthiness of a number-or-missing value: [0], [NaN], [null] and
    [undefined] are falsy. *)
Definition truthy (v : jsnum) : bool :=
  match v with Num z => negb (z =? 0) | Undef => false end.

(** [a + b]; anything added to a missing value is [NaN]. *)
Definition js_add (a b : jsnum) : jsnum :=
  match a, b with Num x, Num y => Num (x + y) | _, _ => Undef end.

(** Relational operators: a comparison with [NaN] or [undefined] is
    [false]. *)
Definition js_leb (a b : jsnum) : bool :=
  match a, b with Num x, Num y => x <=? y | _, _ => false end.

Definition js_geb (a b : jsnum) : bool :=
  match a, b with Num x, Num y => x >=? y | _, _ => false end.

Definition js_gtb (a b : jsnum) : bool :=
  match a, b with Num x, Num y => x >? y | _, _ => false end.

(** [a !== b] against a numeric literal [b]. *)
Definition js_neqb (a : jsnum) (b : Z) : bool :=
  match a with Num x => negb (x =? b) | Undef => true end.

(** ** Request parameters

    The object built by [getSocketRequestParams] and re-derived by
    [updateSocketRequestParams].  [chunkSize] is absent ([Undef]) in the
    object the constructor builds and present in every derived one.
    [serverConfig] is carried by the JavaScript object as well; the only
    parts of it read later ([worker], [maxConcurrency]) go to the
    message parser and are left out. *)

Record RequestParams : Type := mkParams {
  url : string;
  logGuid : string;
  logProfile : string;
  duration : Z;
  timestamp : jsnum;
  bufferLength : jsnum;
  retryAttempts : Z;
  chunkSize : jsnum
}.

(** [{...p, timestamp: ts, duration: d, chunkSize: c}] *)
Definition derive (p : RequestParams) (ts : jsnum) (d c : Z) : RequestParams :=
  mkParams (url p) (logGuid p) (logProfile p) d ts (bufferLength p)
           (retryAttempts p) (Num c).

(** [{...p, timestamp: ts}] *)
Definition with_timestamp (p : RequestParams) (ts : jsnum) : RequestParams :=
  mkParams (url p) (logGuid p) (logProfile p) (duration p) ts (bufferLength p)
           (retryAttempts p) (chunkSize p).

(** ** Messages delivered by the parser *)

Inductive MessageType : Type :=
| METADATA
| TIMESLICE
| DONE
| OTHER.   (* ERROR, INCOMPLETE, or no type at all *)

Record Message : Type := mkMessage {
  type : MessageType;
  start_time : jsnum;      (* metadata: declared start of the log *)
  slice_time : jsnum;      (* timeslice: its timestamp *)
  body : string            (* the rest of the decoded payload *)
}.

(** ** The stream buffer, as the loader consumes it

    [XvizStreamBuffer] lives in [@xviz/parser]; the loader uses exactly
    the operations below.  The buffer is one mutable object owned by the
    loader: every operation that mutates it returns the new buffer, and
    the loader record holds the only copy. *)

Record TimeRange : Type := mkRange { range_start : Z; range_end : Z }.

Class XvizStreamBuffer (B Str : Type) : Type := {
  (* [new XvizStreamBuffer({startOffset, endOffset})] or, with [None],
     [new XvizStreamBuffer()] *)
  newBuffer : option (Z * Z) -> B;
  (* version token, compared with [!==] only *)
  valueOf : B -> Z;
  setCurrentTime : Z -> B -> B;
  insert : Message -> B -> B;
  getLoadedTimeRange : B -> option TimeRange;
  getStreams : B -> Str
}.

(** ** The window planner: [updateSocketRequestParams] *)

Section Planner.

Context {B Str : Type} `{XvizStreamBuffer B Str}.

(** [getXvizSettings().TIME_WINDOW] *)
Variable TIME_WINDOW : Z.

Definition chunkSizeOf (p : RequestParams) : Z :=
  match bufferLength p with
  | Num bl =>
      if truthy (Num bl) then Z.min (duration p) (bl + TIME_WINDOW)
      else duration p
  | Undef => duration p
  end.

(** Clamp against what the buffer already holds (lines 99-109). *)
Definition clampLoaded (loadedRange : option TimeRange) (start end_ : Z) : Z :=
  match loadedRange with
  | Some r =>
      if (range_start r <=? start) && (range_end r >? start) then start
      else if (range_start r <? end_) && (range_end r >=? end_)
           then range_start r
           else end_
  | None => end_
  end.

Definition updateSocketRequestParams
    (timestamp_ : jsnum) (initalRequestParams : RequestParams)
    (streamBuffer : B) : RequestParams :=
  let totalDuration := duration initalRequestParams in
  let initialTimestamp := timestamp initalRequestParams in
  let chunk := chunkSizeOf initalRequestParams in
  match timestamp_, initialTimestamp with
  | Undef, Undef =>
      derive initalRequestParams initialTimestamp chunk chunk
  | Num start, _ | Undef, Num start =>
      let loadedRange := getLoadedTimeRange streamBuffer in
      let end_ := clampLoaded loadedRange start (start + chunk) in
      let '(start, end_) :=
        match initialTimestamp with
        | Num it =>
            if negb (totalDuration =? 0) && truthy initialTimestamp
            then (Z.max start it, Z.min end_ (it + totalDuration))
            else (start, end_)
        | Undef => (start, end_)
        end in
      derive initalRequestParams (Num start) (Z.max 0 (end_ - start)) chunk
  end.

End Planner.

(** ** Construction parameters: [getSocketRequestParams] *)

Definition DEFAULT_LOG_PROFILE : string := "default".
Definition DEFAULT_RETRY_ATTEMPTS : Z := 3.

Record ServerConfig : Type := mkServerConfig {
  serverUrl : string;
  defaultLogLength : jsnum;
  (* own enumerable properties in insertion order; keys are not
     integer-like, so the order is the order of insertion *)
  queryParams : list (string * string);
  (* [Some n] when [Number.isInteger(serverConfig.retryAttempts)] *)
  cfg_retryAttempts : option Z
}.

Record Options : Type := mkOptions {
  opt_logGuid : option string;
  opt_logProfile : option string;
  opt_duration : jsnum;
  opt_timestamp : jsnum;
  opt_bufferLength : jsnum;
  opt_serverConfig : ServerConfig
}.

(** Writing a property: an existing key keeps its place and takes the
    new value, a new key goes last. *)
Fixpoint obj_set (k v : string) (o : list (string * string)) : list (string * string) :=
  match o with
  | [] => [(k, v)]
  | (k', v') :: rest =>
      if String.eqb k' k then (k', v) :: rest else (k', v') :: obj_set k v rest
  end.

(** [a || b] on numbers *)
Definition js_or (a b : jsnum) : jsnum := if truthy a then a else b.

(** [None] when [assert(logGuid && duration)] fails. *)
Definition getSocketRequestParams (options : Options) : option RequestParams :=
  let serverConfig := opt_serverConfig options in
  let logProfile_ :=
    match opt_logProfile options with Some p => p | None => DEFAULT_LOG_PROFILE end in
  let duration_ := js_or (opt_duration options) (defaultLogLength serverConfig) in
  match opt_logGuid options, duration_ with
  | Some logGuid_, Num d =>
      if negb (String.eqb logGuid_ "") && truthy duration_ then
        let qp := obj_set "profile" logProfile_
                    (obj_set "log" logGuid_ (queryParams serverConfig)) in
        let retryAttempts_ :=
          match cfg_retryAttempts serverConfig with
          | Some n => n
          | None => DEFAULT_RETRY_ATTEMPTS
          end in
        let qs := String.concat "&"
                    (map (fun kv => (fst kv ++ "=" ++ snd kv)%string) qp) in
        Some (mkParams (serverUrl serverConfig ++ "?" ++ qs)%string
                       logGuid_ logProfile_ d (opt_timestamp options)
                       (opt_bufferLength options) retryAttempts_ Undef)
      else None
  | _, _ => None
  end.

(** ** Observable effects *)

(** What an ['error'] event may carry. *)
Inductive ErrorPayload : Type :=
| ErrMessage (m : Message)        (* a message of unexpected type *)
| ErrCloseEvent (code : jsnum)    (* the close event of a socket *)
| ErrErrorEvent                   (* the error event of a socket *)
| ErrException (code : jsnum)     (* an exception, or a parser error *)
| ErrUndefined.                   (* retries exhausted: [retry()] had no argument *)

(** [event.code] *)
Definition code_of (e : ErrorPayload) : jsnum :=
  match e with
  | ErrCloseEvent c | ErrException c => c
  | _ => Undef
  end.

Inductive Event : Type :=
| Ready (m : Message)
| Update (m : Message)
| Finish (m : Message)
| Error (e : ErrorPayload).

Inductive Effect : Type :=
| Emit (e : Event)                              (* [this.emit(...)] *)
| SetKey (key : string)                         (* [this.set(key, ...)] *)
| Debug (name : string)                         (* [this._debug(name, ...)] *)
| NewWebSocket (url_ : string) (handle : nat)   (* [new this.WebSocketClass(url)] *)
| SocketClose (handle : nat)                    (* [socket.close()] *)
| NewSynchronizer (start : jsnum)               (* [new StreamSynchronizer(...)] *)
| HandlerOpen (handle : nat) (p : RequestParams)   (* [xvizHandler.open(p)] *)
| HandlerPlay (handle : nat) (p : RequestParams)   (* [xvizHandler.play(p)] *)
| HandlerMetadata (handle : nat)                   (* [xvizHandler.metadata()] *)
| RetrySession (retries : Z).                   (* [PromiseRetry(..., retrySettings)] *)

Inductive Exn : Type := TypeError | AssertionError.

Inductive Completion : Type :=
| Normal
| Thrown (e : Exn).

(** ** The loader *)

Record RetrySettings : Type := mkRetry {
  retries : Z;
  minTimeout : Z;
  randomize : bool
}.

(** The synchronizer keeps a reference to the loader's buffer (it owns
    no copy) and a cache, [_streamsByReverseTime], which its own queries
    fill and which the loader resets. *)
Record StreamSynchronizer : Type := mkSync {
  sync_start_time : jsnum;
  _streamsByReverseTime : option (list Message)
}.

Section Loader.

Context {B Str : Type} `{XvizStreamBuffer B Str}.

Variable TIME_WINDOW : Z.

(** Modelled from the spec: the base class [XVIZLoaderInterface] is not
    part of this file.  [super.seek(t)] stores the timestamp "clamped /
    rounded via the base playback contract", and [getCurrentTime()]
    reads it back; [clampTime] is that clamping, which may depend on
    the metadata. *)
Variable clampTime : option Message -> Z -> Z.

Record Loader : Type := mkLoader {
  socket : option nat;
  requestParams : RequestParams;
  lastRequest : option RequestParams;
  retrySettings : RetrySettings;
  streamBuffer : B;
  xvizHandler : option nat;
  (* the keys of the base class store read or written here *)
  st_timestamp : jsnum;
  st_metadata : option Message;
  st_streams : option Str;
  st_logSynchronizer : option StreamSynchronizer;
  log : list Effect
}.

Definition with_socket (v : option nat) (s : Loader) : Loader :=
  mkLoader v (requestParams s) (lastRequest s) (retrySettings s)
           (streamBuffer s) (xvizHandler s) (st_timestamp s) (st_metadata s)
           (st_streams s) (st_logSynchronizer s) (log s).

Definition with_lastRequest (v : option RequestParams) (s : Loader) : Loader :=
  mkLoader (socket s) (requestParams s) v (retrySettings s)
           (streamBuffer s) (xvizHandler s) (st_timestamp s) (st_metadata s)
           (st_streams s) (st_logSynchronizer s) (log s).

Definition with_streamBuffer (v : B) (s : Loader) : Loader :=
  mkLoader (socket s) (requestParams s) (lastRequest s) (retrySettings s)
           v (xvizHandler s) (st_timestamp s) (st_metadata s)
           (st_streams s) (st_logSynchronizer s) (log s).

Definition with_xvizHandler (v : option nat) (s : Loader) : Loader :=
  mkLoader (socket s) (requestParams s) (lastRequest s) (retrySettings s)
           (streamBuffer s) v (st_timestamp s) (st_metadata s)
           (st_streams s) (st_logSynchronizer s) (log s).

Definition with_timestamp_key (v : jsnum) (s : Loader) : Loader :=
  mkLoader (socket s) (requestParams s) (lastRequest s) (retrySettings s)
           (streamBuffer s) (xvizHandler s) v (st_metadata s)
           (st_streams s) (st_logSynchronizer s) (log s).

Definition with_metadata (v : option Message) (s : Loader) : Loader :=
  mkLoader (socket s) (requestParams s) (lastRequest s) (retrySettings s)
           (streamBuffer s) (xvizHandler s) (st_timestamp s) v
           (st_streams s) (st_logSynchronizer s) (log s).

Definition with_streams (v : option Str) (s : Loader) : Loader :=
  mkLoader (socket s) (requestParams s) (lastRequest s) (retrySettings s)
           (streamBuffer s) (xvizHandler s) (st_timestamp s) (st_metadata s)
           v (st_logSynchronizer s) (log s).

Definition with_logSynchronizer (v : option StreamSynchronizer) (s : Loader) : Loader :=
  mkLoader (socket s) (requestParams s) (lastRequest s) (retrySettings s)
           (streamBuffer s) (xvizHandler s) (st_timestamp s) (st_metadata s)
           (st_streams s) v (log s).

Definition with_log (v : list Effect) (s : Loader) : Loader :=
  mkLoader (socket s) (requestParams s) (lastRequest s) (retrySettings s)
           (streamBuffer s) (xvizHandler s) (st_timestamp s) (st_metadata s)
           (st_streams s) (st_logSynchronizer s) v.

(** Append one effect to the log. *)
Definition tell (e : Effect) (s : Loader) : Loader :=
  with_log (log s ++ [e]) s.

Definition emit (e : Event) (s : Loader) : Loader := tell (Emit e) s.

(** [this.set('streams', v)] and [this.set('logSynchronizer', v)] *)
Definition set_streams (v : Str) (s : Loader) : Loader :=
  tell (SetKey "streams") (with_streams (Some v) s).

Definition set_logSynchronizer (v : StreamSynchronizer) (s : Loader) : Loader :=
  tell (SetKey "logSynchronizer") (with_logSynchronizer (Some v) s).

(** Modelled from the spec: [_setMetadata] belongs to the base class,
    which is not part of this file; the dispatch "publishes metadata",
    after which [this.get('metadata')] returns it. *)
Definition _setMetadata (m : Message) (s : Loader) : Loader :=
  tell (SetKey "metadata") (with_metadata (Some m) s).

(** The constructor; [None] when the assertion of
    [getSocketRequestParams] fails. *)
Definition new_loader (options : Options) : option Loader :=
  match getSocketRequestParams options with
  | None => None
  | Some rp =>
      let buffer :=
        match bufferLength rp with
        | Num bl =>
            if truthy (Num bl) && (bl <? duration rp)
            then newBuffer (Some (- bl, bl))
            else newBuffer None
        | Undef => newBuffer None
        end in
      Some (mkLoader None rp None (mkRetry (retryAttempts rp) 500 true)
                     buffer None Undef None None None [])
  end.

(** [isOpen()] returns the socket, used for its truthiness. *)
Definition isOpen (s : Loader) : bool :=
  match socket s with Some _ => true | None => false end.

Definition getBufferRange (s : Loader) : option TimeRange :=
  getLoadedTimeRange (streamBuffer s).

Definition _onWSError (e : ErrorPayload) (s : Loader) : Loader :=
  emit (Error e) s.

Definition _onWSClose (code : jsnum) (s : Loader) : Loader :=
  tell (Debug "socket_closed") s.

(** [xvizHandler.play(p)]: a [TypeError] when no handler was ever
    created. *)
Definition handler_play (p : RequestParams) (s : Loader) : Loader * Completion :=
  match xvizHandler s with
  | Some h => (tell (HandlerPlay h p) s, Normal)
  | None => (s, Thrown TypeError)
  end.

Definition close (s : Loader) : Loader :=
  match socket s with
  | Some h => with_socket None (tell (SocketClose h) s)
  | None => s
  end.

(** [connect()], the part that runs before it returns its promise: the
    assertion, the debug probe and the start of the retry session.
    The attempts themselves run later, see [session]. *)
Definition connect (s : Loader) : Loader * Completion :=
  match socket s with
  | Some _ => (s, Thrown AssertionError)
  | None =>
      (tell (RetrySession (retries (retrySettings s)))
            (tell (Debug "stream_start") s), Normal)
  end.

Definition seek (timestamp_ : Z) (s : Loader) : Loader * Completion :=
  (* super.seek(timestamp); timestamp = this.getCurrentTime() *)
  let timestamp_ := clampTime (st_metadata s) timestamp_ in
  let s := with_timestamp_key (Num timestamp_) s in
  let bufferStartTime := timestamp_ - TIME_WINDOW in
  (* prune buffer *)
  let oldVersion := valueOf (streamBuffer s) in
  let s := with_streamBuffer (setCurrentTime timestamp_ (streamBuffer s)) s in
  let s := if valueOf (streamBuffer s) =? oldVersion then s
           else set_streams (getStreams (streamBuffer s)) s in
  match lastRequest s with
  | None => (s, Normal)
  | Some last =>
      let lastRequestedTimestamp := timestamp last in
      if js_geb (Num bufferStartTime) lastRequestedTimestamp
         && js_leb (Num timestamp_) (js_add lastRequestedTimestamp (chunkSize last))
      then (* within range *) (s, Normal)
      else
        let cancelPrevious := false in
        let params := updateSocketRequestParams TIME_WINDOW
                        (Num bufferStartTime) (requestParams s) (streamBuffer s) in
        if duration params =? 0 then (s, Normal)
        else
          let s := with_lastRequest
                     (Some (with_timestamp params (Num bufferStartTime))) s in
          if isOpen s && negb cancelPrevious
          then handler_play params s
          else connect (close s)
  end.

(** [_onWSOpen] *)
Definition _onWSOpen (s : Loader) : Loader :=
  match socket s with
  | None => s   (* not reached: [onopen] stores the socket first *)
  | Some h =>
      let s := with_xvizHandler (Some h) s in
      let s := tell (HandlerOpen h (requestParams s)) s in
      let s := tell (Debug "socket_open") s in
      match lastRequest s with
      | Some last => tell (HandlerPlay h last) s
      | None => tell (HandlerMetadata h) s
      end
  end.

(** [_onWSMessage] *)
Definition _onWSMessage (message : Message) (s : Loader) : Loader * Completion :=
  match type message with
  | METADATA =>
      match st_metadata s with
      | Some _ => (* already has metadata *) (s, Normal)
      | None =>
          let s := tell (NewSynchronizer (start_time message)) s in
          let s := set_logSynchronizer (mkSync (start_time message) None) s in
          let params := updateSocketRequestParams TIME_WINDOW
                          (start_time message) (requestParams s) (streamBuffer s) in
          let s := with_lastRequest (Some params) s in
          match handler_play params s with
          | (s, Normal) =>
              let s := _setMetadata message s in
              (emit (Ready message) s, Normal)
          | thrown => thrown
          end
      end
  | TIMESLICE =>
      let oldVersion := valueOf (streamBuffer s) in
      let s := with_streamBuffer (insert message (streamBuffer s)) s in
      if valueOf (streamBuffer s) =? oldVersion
      then (emit (Update message) s, Normal)
      else
        let s := set_streams (getStreams (streamBuffer s)) s in
        match st_logSynchronizer s with
        | Some sync =>
            let s := with_logSynchronizer
                       (Some (mkSync (sync_start_time sync) None)) s in
            (emit (Update message) s, Normal)
        | None => (* property write on [undefined] *) (s, Thrown TypeError)
        end
  | DONE => (emit (Finish message) s, Normal)
  | OTHER => (emit (Error (ErrMessage message)) s, Normal)
  end.

(** ** Connection attempts and the retry session

    [connect] wraps each attempt in a promise and hands the attempt
    function to [PromiseRetry] with [retrySettings].  What the
    transport does to the [h]-th socket built is a list of the events
    it fires on it, in order.  Delays between attempts are not
    modelled: only the order of the callbacks is. *)

Inductive WsEvent : Type :=
| OnOpen
| OnMessage (parsed : option Message)   (* [None]: the parser reports an error *)
| OnError
| OnClose (code : jsnum).

(** State of the promise of one attempt.  A promise settles once: a
    [reject] after [resolve] does nothing. *)
Inductive Settlement : Type :=
| Pending
| Resolved            (* [resolve(ws)] in [onopen] *)
| RejectedRetry       (* rejected, and the handler called [retry()] *)
| RejectedNoRetry.    (* rejected, and the handler returned *)

Definition isAbnormalClosure (code : jsnum) : bool :=
  js_gtb code (Num 1000) && js_neqb code 1005.

(** The [.catch] of an attempt (lines 289-297): the flag says whether
    [retry()] is called. *)
Definition on_rejected (event : ErrorPayload) (s : Loader) : Loader * bool :=
  let s := _onWSError event s in
  (s, isAbnormalClosure (code_of event) || negb (isOpen s)).

Definition settle_rejected (event : ErrorPayload) (s : Loader) : Loader * Settlement :=
  let '(s, r) := on_rejected event s in
  (s, if r then RejectedRetry else RejectedNoRetry).

(** The callbacks installed on socket [h], run on the events it fires.
    A close event is the last event of a socket. *)
Fixpoint ws_deliver (h : nat) (evs : list WsEvent) (p : Settlement) (s : Loader)
  : Loader * Settlement :=
  match evs with
  | [] => (s, p)
  | OnOpen :: rest =>
      let s := _onWSOpen (with_socket (Some h) s) in
      ws_deliver h rest (match p with Pending => Resolved | _ => p end) s
  | OnMessage (Some m) :: rest =>
      (* an exception in [onResult] stays in the parser's callback *)
      ws_deliver h rest p (fst (_onWSMessage m s))
  | OnMessage None :: rest =>
      ws_deliver h rest p (_onWSError (ErrException Undef) s)
  | OnError :: rest =>
      ws_deliver h rest p (_onWSError ErrErrorEvent s)
  | OnClose code :: _ =>
      let s := _onWSClose code s in
      match p with
      | Pending => settle_rejected (ErrCloseEvent code) s
      | _ => (s, p)
      end
  end.

(** One attempt: build socket [h] and let the transport act on it;
    [None] is a constructor that throws. *)
Definition attempt (h : nat) (behaviour : option (list WsEvent)) (s : Loader)
  : Loader * Settlement :=
  match behaviour with
  | Some evs =>
      ws_deliver h evs Pending (tell (NewWebSocket (url (requestParams s)) h) s)
  | None => settle_rejected (ErrException Undef) s
  end.

Inductive SessionResult : Type :=
| Connected        (* the promise of [connect] resolves with the socket *)
| GaveUp           (* an attempt failed and [retry()] was not called *)
| Exhausted        (* no retry left: rejected, [.catch(this._onWSError)] ran *)
| Waiting.         (* the current attempt has neither opened nor closed *)

(** [PromiseRetry(attempt, {retries, ...})]: a call of [retry()] starts
    a further attempt while retries are left; with none left the
    promise is rejected with the argument of [retry()], which is
    [undefined] here, and the outer [.catch] reports it. *)
Fixpoint session (retriesLeft : nat) (transport : nat -> option (list WsEvent))
    (h : nat) (s : Loader) : Loader * SessionResult :=
  let '(s, r) := attempt h (transport h) s in
  match r with
  | Pending => (s, Waiting)
  | Resolved => (s, Connected)
  | RejectedNoRetry => (s, GaveUp)
  | RejectedRetry =>
      match retriesLeft with
      | O => (_onWSError ErrUndefined s, Exhausted)
      | S k => session k transport (S h) s
      end
  end.

(** [connect()] followed by the whole of its retry session; the
    sockets built are numbered from [h].  A negative [retries] leaves
    no retry, like [0]. *)
Definition connect_run (transport : nat -> option (list WsEvent)) (h : nat)
    (s : Loader) : Loader * option SessionResult :=
  match connect s with
  | (s, Normal) =>
      let '(s, r) := session (Z.to_nat (retries (retrySettings s))) transport h s in
      (s, Some r)
  | (s, Thrown _) => (s, None)
  end.

End Loader.

Arguments Loader B Str : clear implicits.

(** ** Reading the log *)

Definition is_ready (e : Effect) : bool :=
  match e with Emit (Ready _) => true | _ => false end.

Definition is_update (e : Effect) : bool :=
  match e with Emit (Update _) => true | _ => false end.

Definition is_error (e : Effect) : bool :=
  match e with Emit (Error _) => true | _ => false end.

(** The ['error'] that reports exhausted retries. *)
Definition is_terminal_error (e : Effect) : bool :=
  match e with Emit (Error ErrUndefined) => true | _ => false end.

(** An ['error'] that carries the close event of a socket. *)
Definition is_close_error (e : Effect) : bool :=
  match e with Emit (Error (ErrCloseEvent _)) => true | _ => false end.

Definition is_new_synchronizer (e : Effect) : bool :=
  match e with NewSynchronizer _ => true | _ => false end.

Definition is_new_socket (e : Effect) : bool :=
  match e with NewWebSocket _ _ => true | _ => false end.

Definition is_set_streams (e : Effect) : bool :=
  match e with SetKey k => String.eqb k "streams" | _ => false end.

(** Traffic towards the server: controller messages, sockets built or
    closed, retry sessions started. *)
Definition is_request (e : Effect) : bool :=
  match e with
  | HandlerOpen _ _ | HandlerPlay _ _ | HandlerMetadata _
  | NewWebSocket _ _ | SocketClose _ | RetrySession _ => true
  | _ => false
  end.

Definition count (f : Effect -> bool) (l : list Effect) : nat :=
  List.length (filter f l).

Definition requests (l : list Effect) : list Effect := filter is_request l.

(** ** Message sequences *)

Section Dispatch.

Context {B Str : Type} `{XvizStreamBuffer B Str}.
Variable TIME_WINDOW : Z.

(** Messages are handled one at a time in arrival order; an exception
    raised by one handler does not stop the next message. *)
Fixpoint dispatch_all (ms : list Message) (s : Loader B Str) : Loader B Str :=
  match ms with
  | [] => s
  | m :: rest => dispatch_all rest (fst (_onWSMessage TIME_WINDOW m s))
  end.

Definition is_metadata (m : Message) : bool :=
  match type m with METADATA => true | _ => false end.

(** The version token after [setCurrentTime] / [insert] differs from
    the one before. *)
Definition prune_changes (t : Z) (b : B) : bool :=
  negb (valueOf (setCurrentTime t b) =? valueOf b).

Definition insert_changes (m : Message) (b : B) : bool :=
  negb (valueOf (insert m b) =? valueOf b).

End Dispatch.

(** ** What the specification says, where it is compared with the code *)

(** Session bound respecting: the window [r] planned from [p] lies in
    [[sessionStart, sessionStart + totalDuration]]. *)
Definition session_bounded (p r : RequestParams) : Prop :=
  match timestamp p, timestamp r with
  | Num sessionStart, Num ts =>
      sessionStart <= ts /\ ts + duration r <= sessionStart + duration p
  | _, _ => False
  end.

(** The interval of the idempotent-seek property as the specification
    words it: [[last.timestamp, last.timestamp + last.chunkSize - TIME_WINDOW]]. *)
Definition in_spec_interval (TIME_WINDOW : Z) (last : RequestParams) (t : Z) : Prop :=
  match timestamp last, chunkSize last with
  | Num lt, Num cs => lt <= t <= lt + cs - TIME_WINDOW
  | _, _ => False
  end.

(** The interval the guard of [seek] accepts:
    [[last.timestamp + TIME_WINDOW, last.timestamp + last.chunkSize]]. *)
Definition in_covered_interval (TIME_WINDOW : Z) (last : RequestParams) (t : Z) : Prop :=
  match timestamp last, chunkSize last with
  | Num lt, Num cs => lt + TIME_WINDOW <= t <= lt + cs
  | _, _ => False
  end.

(** The synchronizer's cached reverse-time index is cleared. *)
Definition cache_cleared {B Str : Type} (s : Loader B Str) : Prop :=
  forall sync, st_logSynchronizer s = Some sync -> _streamsByReverseTime sync = None.

(** ** A buffer to run the loader on

    A small stand-in for [XvizStreamBuffer]: it keeps the timestamps of
    the timeslices it holds.  A timeslice outside the window around the
    current time is refused and changes nothing; one inside it is
    stored (replacing a timeslice of the same timestamp) and moves the
    version token; pruning drops what falls outside the window and
    moves the token if anything was dropped. *)

Module SimBuffer.

Record t : Type := mk {
  version : Z;
  offsets : option (Z * Z);
  now : option Z;
  slices : list Z
}.

Definition in_window (o : option (Z * Z)) (cur : option Z) (ts : Z) : bool :=
  match o, cur with
  | Some (lo, hi), Some c => (c + lo <=? ts) && (ts <=? c + hi)
  | _, _ => true
  end.

Definition insert (m : Message) (b : t) : t :=
  match slice_time m with
  | Num ts =>
      if in_window (offsets b) (now b) ts
      then mk (version b + 1) (offsets b) (now b)
              (if existsb (Z.eqb ts) (slices b) then slices b else slices b ++ [ts])
      else b
  | Undef => b
  end.

Definition setCurrentTime (c : Z) (b : t) : t :=
  let kept := filter (in_window (offsets b) (Some c)) (slices b) in
  mk (if (List.length kept =? List.length (slices b))%nat then version b else version b + 1)
     (offsets b) (Some c) kept.

Definition getLoadedTimeRange (b : t) : option TimeRange :=
  match slices b with
  | [] => None
  | x :: rest => Some (mkRange (fold_right Z.min x rest) (fold_right Z.max x rest))
  end.

End SimBuffer.

#[export] Instance SimBuffer_ops : XvizStreamBuffer SimBuffer.t (list Z) := {
  newBuffer := fun o => SimBuffer.mk 0 o None [];
  valueOf := SimBuffer.version;
  setCurrentTime := SimBuffer.setCurrentTime;
  insert := SimBuffer.insert;
  getLoadedTimeRange := SimBuffer.getLoadedTimeRange;
  getStreams := SimBuffer.slices
}.

(** ** Concrete runs *)

Module Scenario.

(** Timestamps inside the log are not moved by the base class. *)
Definition clampTime (md : option Message) (t : Z) : Z := t.

Definition TIME_WINDOW : Z := 2.

Definition config : ServerConfig :=
  mkServerConfig "ws://localhost:8081" (Num 30) [("session_type", "log")] None.

(** [bufferLength = 10], [duration = 30], declared start [100]. *)
Definition options : Options :=
  mkOptions (Some "mock") None (Num 30) (Num 100) (Num 10) config.

(** The same without a declared start. *)
Definition options_no_start : Options :=
  mkOptions (Some "mock") None (Num 30) Undef (Num 10) config.

Definition params_of (o : Options) : RequestParams :=
  match getSocketRequestParams o with
  | Some p => p
  | None => mkParams "" "" "" 0 Undef Undef 0 Undef
  end.

Definition params : RequestParams := params_of options.

Definition metadata : Message := mkMessage METADATA (Num 100) Undef "".
Definition slice (ts : Z) : Message := mkMessage TIMESLICE Undef (Num ts) "".

Definition empty : SimBuffer.t := newBuffer None.

(** Holds [[100, 112)]. *)
Definition loaded : SimBuffer.t := insert (slice 112) (insert (slice 100) empty).

Definition fresh (o : Options) : Loader SimBuffer.t (list Z) :=
  match new_loader o with
  | Some s => s
  | None => mkLoader None (params_of o) None (mkRetry 0 0 false) empty
                     None Undef None None None []
  end.

(** A transport that opens the first socket and delivers [ms] on it. *)
Definition serving (ms : list Message) (h : nat) : option (list WsEvent) :=
  match h with
  | O => Some (OnOpen :: map (fun m => OnMessage (Some m)) ms)
  | _ => Some []
  end.

(** A transport that refuses every socket with close code [1006]. *)
Definition refusing (h : nat) : option (list WsEvent) :=
  Some [OnClose (Num 1006)].

Definition after (o : Options) (ms : list Message) : Loader SimBuffer.t (list Z) :=
  fst (connect_run TIME_WINDOW (serving ms) 0 (fresh o)).

(** Connected, metadata received, nothing buffered yet. *)
Definition ready : Loader SimBuffer.t (list Z) := after options_no_start [metadata].

(** Connected, metadata received, [[100, 112)] buffered. *)
Definition playing : Loader SimBuffer.t (list Z) :=
  after options [metadata; slice 100; slice 112].

(** Connected, metadata received, [100], [112] and [113] buffered. *)
Definition playing_ahead : Loader SimBuffer.t (list Z) :=
  after options [metadata; slice 100; slice 112; slice 113].

(** [playing] with the playhead moved to [105]: the buffer window is
    [[95, 115]] and still holds [100] and [112]. *)
Definition sought : Loader SimBuffer.t (list Z) :=
  fst (seek TIME_WINDOW clampTime 105 playing).

(** [sought] after the application has queried the synchronizer, which
    filled its cache. *)
Definition sought_cached : Loader SimBuffer.t (list Z) :=
  with_logSynchronizer (Some (mkSync (Num 100) (Some [slice 112; slice 100]))) sought.

(** [playing] after the application has queried the synchronizer,
    which filled its cache. *)
Definition playing_cached : Loader SimBuffer.t (list Z) :=
  with_logSynchronizer (Some (mkSync (Num 100) (Some [slice 112; slice 100]))) playing.

End Scenario.

(** ** Transports *)

(** What the transport does to a socket that never opens and is closed
    abnormally: any number of error events, then the close event. *)
Definition closes_abnormally (behaviour : option (list WsEvent)) : Prop :=
  exists (errors : nat) (code : jsnum),
    behaviour = Some (repeat OnError errors ++ [OnClose code]) /\
    isAbnormalClosure code = true.

(** ** The first half of [seek] *)

Section SeekPrefix.

Context {B Str : Type} `{XvizStreamBuffer B Str}.
Variable TIME_WINDOW : Z.
Variable clampTime : option Message -> Z -> Z.

(** The loader after lines 196-207 of [seek]: playhead stored, buffer
    pruned, streams republished if the version token moved. *)
Definition after_prune (t : Z) (s : Loader B Str) : Loader B Str :=
  let c := clampTime (st_metadata s) t in
  let s1 := with_streamBuffer (setCurrentTime c (streamBuffer s))
              (with_timestamp_key (Num c) s) in
  if prune_changes c (streamBuffer s)
  then set_streams (getStreams (streamBuffer s1)) s1
  else s1.

(** Two seeks in a row add no traffic towards the server. *)
Definition seeks_issue_nothing (t1 t2 : Z) (s : Loader B Str) : Prop :=
  requests (log (fst (seek TIME_WINDOW clampTime t2
                        (fst (seek TIME_WINDOW clampTime t1 s)))))
  = requests (log s).

End SeekPrefix.

(** The start the planner works from: the target if it is finite, the
    initial timestamp otherwise (line 96); [None] on the early return of
    line 87. *)
Definition plan_start (t : jsnum) (p : RequestParams) : option Z :=
  match t, timestamp p with
  | Num x, _ => Some x
  | Undef, Num x => Some x
  | Undef, Undef => None
  end.

(** ** The query object of [getSocketRequestParams] *)

(** [o[k]] *)
Fixpoint obj_get (k : string) (o : list (string * string)) : option string :=
  match o with
  | [] => None
  | (k', v) :: rest => if String.eqb k' k then Some v else obj_get k rest
  end.

(** [Object.keys(o)] *)
Definition obj_keys (o : list (string * string)) : list string := map fst o.

(** [{...serverConfig.queryParams, log: logGuid, profile: logProfile}] *)
Definition queryObject (cfg : ServerConfig) (logGuid_ logProfile_ : string)
  : list (string * string) :=
  obj_set "profile" logProfile_ (obj_set "log" logGuid_ (queryParams cfg)).

(** [Object.keys(o).map(key => `${key}=${o[key]}`).join('&')], written
    with the lookup the source performs. *)
Definition queryString (o : list (string * string)) : string :=
  String.concat "&"
    (map (fun key =>
            (key ++ "=" ++ match obj_get key o with Some v => v | None => "undefined" end)%string)
         (obj_keys o)).

(** ** Loader states *)

Section States.

Context {B Str : Type} `{XvizStreamBuffer B Str}.
Variable TIME_WINDOW : Z.
Variable clampTime : option Message -> Z -> Z.

(** A recorded socket has its controller: [onopen] stores the socket
    and creates the controller in the same callback. *)
Definition handler_ready (s : Loader B Str) : Prop :=
  socket s <> None -> xvizHandler s <> None.

(** The guard of [seek] (lines 215-218) on the clamped timestamp [c]. *)
Definition covered (c : Z) (last : RequestParams) : bool :=
  js_geb (Num (c - TIME_WINDOW)) (timestamp last)
  && js_leb (Num c) (js_add (timestamp last) (chunkSize last)).

(** The window [seek] asks the planner for. *)
Definition seek_plan (t : Z) (s : Loader B Str) : RequestParams :=
  let c := clampTime (st_metadata s) t in
  updateSocketRequestParams TIME_WINDOW (Num (c - TIME_WINDOW)) (requestParams s)
    (setCurrentTime c (streamBuffer s)).

(** [seek] gets past both of its early returns. *)
Definition seek_issues (t : Z) (s : Loader B Str) : bool :=
  match lastRequest s with
  | None => false
  | Some last =>
      negb (covered (clampTime (st_metadata s) t) last)
      && negb (duration (seek_plan t s) =? 0)
  end.

(** What the published ['streams'] key holds is what the buffer holds. *)
Definition streams_in_sync (s : Loader B Str) : Prop :=
  st_streams s = Some (getStreams (streamBuffer s)).

(** The contract of the version token: an operation that leaves the
    token alone leaves the streams alone. *)
Definition version_faithful : Prop :=
  (forall (m : Message) (b : B),
      valueOf (insert m b) = valueOf b -> getStreams (insert m b) = getStreams b) /\
  (forall (t : Z) (b : B),
      valueOf (setCurrentTime t b) = valueOf b ->
      getStreams (setCurrentTime t b) = getStreams b).

End States.

Definition is_timeslice (m : Message) : bool :=
  match type m with TIMESLICE => true | _ => false end.

Definition is_metadata_request (e : Effect) : bool :=
  match e with HandlerMetadata _ => true | _ => false end.

Definition is_play (e : Effect) : bool :=
  match e with HandlerPlay _ _ => true | _ => false end.

(** Effects that only [connect], [close] and the retry session
    produce. *)
Definition session_only (e : Effect) : bool :=
  match e with
  | NewWebSocket _ _ | SocketClose _ | RetrySession _
  | Emit (Error ErrUndefined) => true
  | _ => false
  end.

(** Effects that no socket callback produces while the attempt is
    settled: the above, and the report of a close event. *)
Definition not_from_callbacks (e : Effect) : bool :=
  session_only e || is_close_error e.

(** A transport that refuses the sockets [h .. h + failures - 1] and
    opens socket [h + failures]. *)
Definition recovers_after (transport : nat -> option (list WsEvent))
    (h failures : nat) : Prop :=
  (forall i, (i < failures)%nat -> closes_abnormally (transport (h + i)%nat)) /\
  transport (h + failures)%nat = Some [OnOpen].

(** * Properties *)

(** ** The window planner *)

Section PlannerFacts.

Context {B Str : Type} `{XvizStreamBuffer B Str}.
Variable TIME_WINDOW : Z.

Lemma chunkSize_derive p ts d c : chunkSize (derive p ts d c) = Num c.
Proof. reflexivity. Qed.

(** Every planned window carries the chunk size. *)
Lemma planner_chunkSize (t : jsnum) p (b : B) :
  chunkSize (updateSocketRequestParams TIME_WINDOW t p b)
  = Num (chunkSizeOf TIME_WINDOW p).
Proof.
  unfold updateSocketRequestParams.
  destruct t, (timestamp p) as [|it]; try reflexivity;
    match goal with |- context [if ?c then _ else _] => destruct c end;
    reflexivity.
Qed.

(** The planned duration is never negative once a start is known. *)
Lemma planner_duration_nonneg (t : jsnum) p (b : B) :
  (isFinite t || isFinite (timestamp p)) = true ->
  0 <= duration (updateSocketRequestParams TIME_WINDOW t p b).
Proof.
  unfold updateSocketRequestParams.
  destruct t, (timestamp p) as [|it]; simpl; try discriminate; intros _;
    try match goal with |- context [if ?c then _ else _] => destruct c end;
    simpl; lia.
Qed.

(** With session clamping active, the planner returns
    [start = max(target, sessionStart)] and the end clamped from
    above. *)
Lemma planner_clamped (t : jsnum) p (b : B) sessionStart :
  timestamp p = Num sessionStart -> sessionStart <> 0 -> duration p <> 0 ->
  let target := match t with Num x => x | Undef => sessionStart end in
  let end_ := clampLoaded (getLoadedTimeRange b) target
                (target + chunkSizeOf TIME_WINDOW p) in
  let r := updateSocketRequestParams TIME_WINDOW t p b in
  timestamp r = Num (Z.max target sessionStart) /\
  duration r = Z.max 0 (Z.min end_ (sessionStart + duration p)
                        - Z.max target sessionStart).
Proof.
  intros Hts Hss Hd. unfold updateSocketRequestParams. rewrite Hts.
  assert (Hc : negb (duration p =? 0) && truthy (Num sessionStart) = true).
  { simpl. apply andb_true_intro; split; apply negb_true_iff, Z.eqb_neq; assumption. }
  destruct t; rewrite Hc; simpl; split; reflexivity.
Qed.

End PlannerFacts.

(** C1.  Window clamp on the scenario of the specification: with
    [bufferLength = 10], [TIME_WINDOW = 2], [totalDuration = 30] and
    [sessionStart = 100] the chunk size is [min(30, 12) = 12] for every
    window; once the buffer holds [[100, 112)], planning at [105] gives
    duration [0], and planning at [113] gives timestamp [113] and
    duration [12] (end [125]): neither clamp against the loaded range
    applies, as [113] is not below [112]. *)
Theorem C1_window_clamp_scenario {B Str : Type} `{XvizStreamBuffer B Str}
    (p : RequestParams) (b : B) :
  duration p = 30 -> timestamp p = Num 100 -> bufferLength p = Num 10 ->
  getLoadedTimeRange b = Some (mkRange 100 112) ->
  let planWindow := fun t => updateSocketRequestParams 2 (Num t) p b in
  chunkSizeOf 2 p = Z.min 30 12 /\
  (forall t (b0 : B), chunkSize (updateSocketRequestParams 2 t p b0) = Num 12) /\
  duration (planWindow 105) = 0 /\
  clampLoaded (getLoadedTimeRange b) 113 (113 + 12) = 125 /\
  timestamp (planWindow 113) = Num 113 /\
  duration (planWindow 113) = 12 /\
  chunkSize (planWindow 113) = Num 12.
Proof.
  intros Hd Hts Hbl Hr planWindow.
  assert (Hc : chunkSizeOf 2 p = 12).
  { unfold chunkSizeOf. rewrite Hbl, Hd. reflexivity. }
  split; [rewrite Hc; reflexivity|].
  split; [intros t b0; rewrite planner_chunkSize, Hc; reflexivity|].
  assert (H105 : planWindow 105 = derive p (Num 105) 0 12).
  { unfold planWindow, updateSocketRequestParams.
    rewrite Hts, Hd, Hr, Hc. reflexivity. }
  assert (H113 : planWindow 113 = derive p (Num 113) 12 12).
  { unfold planWindow, updateSocketRequestParams.
    rewrite Hts, Hd, Hr, Hc. reflexivity. }
  rewrite H105, H113, Hr. repeat split.
Qed.

Lemma C1_window_clamp_scenario_witness :
  duration (updateSocketRequestParams 2 (Num 105) Scenario.params Scenario.loaded) = 0 /\
  timestamp (updateSocketRequestParams 2 (Num 113) Scenario.params Scenario.loaded) = Num 113 /\
  duration (updateSocketRequestParams 2 (Num 113) Scenario.params Scenario.loaded) = 12.
Proof.
  pose proof (C1_window_clamp_scenario Scenario.params Scenario.loaded
                eq_refl eq_refl eq_refl eq_refl) as W.
  cbv zeta in W.
  destruct W as (_ & _ & W105 & _ & Wts & Wd & _).
  exact (conj W105 (conj Wts Wd)).
Defined.

(** C3, as the specification states it, fails beyond the end of the
    session: a target of [200] in a session [[100, 130]] comes back as
    the window [[200, 200]]. *)
Lemma C3_counterexample :
  ~ session_bounded Scenario.params
      (updateSocketRequestParams 2 (Num 200) Scenario.params Scenario.empty).
Proof. vm_compute. intros [_ Hle]. apply Hle. reflexivity. Qed.

(** C3 (amended).  With a non-zero session start and total duration,
    the planner cuts the window to the session: the returned timestamp
    is never before the session start, the end the duration is
    measured to is never beyond [sessionStart + totalDuration], and
    the duration is [max(0, end - timestamp)], never negative.  (The
    duration is that one subtraction of the code; nothing is said of
    [timestamp + duration], a further sum.)  So a window of positive
    duration starts strictly before the session end; with a total
    duration that is not negative, a target up to the session end
    gives a timestamp up to the session end, and a target beyond the
    session end comes back as the window of duration [0] at the target
    itself. *)
Theorem C3_session_bounds {B Str : Type} `{XvizStreamBuffer B Str}
    (TIME_WINDOW : Z) (t : jsnum) (p : RequestParams) (b : B) (sessionStart : Z) :
  timestamp p = Num sessionStart -> sessionStart <> 0 -> duration p <> 0 ->
  let r := updateSocketRequestParams TIME_WINDOW t p b in
  let sessionEnd := sessionStart + duration p in
  exists ts end_,
    timestamp r = Num ts /\
    sessionStart <= ts /\
    end_ <= sessionEnd /\
    duration r = Z.max 0 (end_ - ts) /\
    0 <= duration r /\
    (0 < duration r -> ts < sessionEnd) /\
    (0 <= duration p ->
     js_leb (match t with Num x => t | Undef => Num sessionStart end)
            (Num sessionEnd) = true ->
     ts <= sessionEnd) /\
    (0 <= duration p ->
     forall x, t = Num x -> sessionEnd < x -> ts = x /\ duration r = 0).
Proof.
  intros Hts Hss Hd r sessionEnd.
  destruct (planner_clamped TIME_WINDOW t p b sessionStart Hts Hss Hd) as [Hrts Hrd].
  fold r in Hrts, Hrd.
  set (target := match t with Num x => x | Undef => sessionStart end) in *.
  set (e0 := clampLoaded (getLoadedTimeRange b) target
               (target + chunkSizeOf TIME_WINDOW p)) in *.
  exists (Z.max target sessionStart), (Z.min e0 sessionEnd).
  split; [exact Hrts|]. split; [lia|]. split; [lia|].
  split; [exact Hrd|]. split; [rewrite Hrd; lia|].
  split; [rewrite Hrd; subst sessionEnd; lia|]. split.
  - intros Hnn Hle.
    assert (target <= sessionEnd).
    { subst target. destruct t; simpl in Hle; apply Z.leb_le in Hle;
        subst sessionEnd; lia. }
    subst sessionEnd. lia.
  - intros Hnn x Hx Hbeyond. subst t. subst target. rewrite Hrd.
    subst sessionEnd. split; lia.
Qed.

(** Planned at [113] in the session [[100, 130]]: the window is
    [[113, 125]]; planned at [200], it is the zero window at [200]. *)
Lemma C3_session_bounds_witness :
  (exists ts end_,
      timestamp (updateSocketRequestParams 2 (Num 113) Scenario.params Scenario.loaded)
      = Num ts /\
      100 <= ts /\ end_ <= 130 /\
      duration (updateSocketRequestParams 2 (Num 113) Scenario.params Scenario.loaded)
      = Z.max 0 (end_ - ts)) /\
  duration (updateSocketRequestParams 2 (Num 200) Scenario.params Scenario.empty) = 0.
Proof.
  split.
  - destruct (C3_session_bounds 2 (Num 113) Scenario.params Scenario.loaded 100)
      as (ts & end_ & W1 & W2 & W3 & W4 & _);
      [reflexivity | discriminate | discriminate |].
    exists ts, end_. repeat split; assumption.
  - destruct (C3_session_bounds 2 (Num 200) Scenario.params Scenario.empty 100)
      as (ts & end_ & _ & _ & _ & _ & _ & _ & _ & W);
      [reflexivity | discriminate | discriminate |].
    apply (W ltac:(cbn; lia) 200 eq_refl). cbn. lia.
Defined.

(** ** Seek *)

Section SeekFacts.

Context {B Str : Type} `{XvizStreamBuffer B Str}.
Variable TIME_WINDOW : Z.
Variable clampTime : option Message -> Z -> Z.

Lemma requests_app l1 l2 : requests (l1 ++ l2) = requests l1 ++ requests l2.
Proof. apply filter_app. Qed.

Lemma count_app f l1 l2 : count f (l1 ++ l2) = (count f l1 + count f l2)%nat.
Proof. unfold count. rewrite filter_app, length_app. reflexivity. Qed.

(** [seek], with its first half named. *)
Lemma seek_unfold (t : Z) (s : Loader B Str) :
  seek TIME_WINDOW clampTime t s =
  let c := clampTime (st_metadata s) t in
  let s1 := after_prune clampTime t s in
  match lastRequest s with
  | None => (s1, Normal)
  | Some last =>
      if js_geb (Num (c - TIME_WINDOW)) (timestamp last)
         && js_leb (Num c) (js_add (timestamp last) (chunkSize last))
      then (s1, Normal)
      else
        let params := updateSocketRequestParams TIME_WINDOW
                        (Num (c - TIME_WINDOW)) (requestParams s)
                        (setCurrentTime c (streamBuffer s)) in
        if duration params =? 0 then (s1, Normal)
        else
          let s2 := with_lastRequest
                      (Some (with_timestamp params (Num (c - TIME_WINDOW)))) s1 in
          if isOpen s2 then handler_play params s2 else connect (close s2)
  end.
Proof.
  destruct s as [sock rp lr rs b xh ts md strs sync lg].
  unfold seek, after_prune, prune_changes. cbv zeta.
  cbn [streamBuffer with_streamBuffer with_timestamp_key st_metadata lastRequest
       requestParams].
  destruct (valueOf (setCurrentTime (clampTime md t) b) =? valueOf b);
    destruct lr as [last|]; cbn [negb]; try reflexivity;
    rewrite andb_true_r; reflexivity.
Qed.

(** What the first half of [seek] leaves alone. *)
Lemma after_prune_frame (t : Z) (s : Loader B Str) :
  let s1 := after_prune clampTime t s in
  socket s1 = socket s /\ requestParams s1 = requestParams s /\
  lastRequest s1 = lastRequest s /\ xvizHandler s1 = xvizHandler s /\
  st_metadata s1 = st_metadata s /\
  st_logSynchronizer s1 = st_logSynchronizer s /\
  requests (log s1) = requests (log s).
Proof.
  unfold after_prune.
  destruct (prune_changes _ _); cbn; repeat split.
  rewrite requests_app. cbn. apply app_nil_r.
Qed.

Lemma after_prune_buffer (t : Z) (s : Loader B Str) :
  streamBuffer (after_prune clampTime t s)
  = setCurrentTime (clampTime (st_metadata s) t) (streamBuffer s).
Proof.
  unfold after_prune. destruct (prune_changes _ _); reflexivity.
Qed.

Lemma after_prune_streams (t : Z) (s : Loader B Str) :
  let c := clampTime (st_metadata s) t in
  st_streams (after_prune clampTime t s)
  = (if prune_changes c (streamBuffer s)
     then Some (getStreams (setCurrentTime c (streamBuffer s)))
     else st_streams s) /\
  count is_set_streams (log (after_prune clampTime t s))
  = (count is_set_streams (log s)
     + if prune_changes c (streamBuffer s) then 1 else 0)%nat.
Proof.
  unfold after_prune.
  destruct (prune_changes _ _); cbn -[count]; split; try reflexivity.
  - rewrite count_app. reflexivity.
  - rewrite Nat.add_0_r. reflexivity.
Qed.

(** The second half of [seek] touches neither the buffer nor the
    published streams. *)
Lemma seek_buffer_streams (t : Z) (s : Loader B Str) :
  let s' := fst (seek TIME_WINDOW clampTime t s) in
  streamBuffer s' = streamBuffer (after_prune clampTime t s) /\
  st_streams s' = st_streams (after_prune clampTime t s) /\
  count is_set_streams (log s') = count is_set_streams (log (after_prune clampTime t s)).
Proof.
  rewrite seek_unfold. cbv zeta.
  destruct (lastRequest s) as [last|]; [|repeat split].
  destruct (_ && _); [repeat split|].
  destruct (duration _ =? 0); [repeat split|].
  set (s1 := after_prune clampTime t s).
  unfold isOpen, handler_play, connect, close. cbn -[count].
  destruct (socket s1) eqn:Hs; cbn -[count].
  - destruct (xvizHandler s1); cbn -[count]; repeat split.
    rewrite count_app. cbn. apply Nat.add_0_r.
  - rewrite Hs. cbn -[count]. repeat split.
    rewrite <- app_assoc, count_app. cbn. apply Nat.add_0_r.
Qed.

End SeekFacts.

(** C10.  Every [seek] first moves the buffer's current-time marker to
    the clamped timestamp and republishes the streams exactly when the
    version token changed; when no request was ever issued it then
    returns: apart from the stored playhead, the pruned buffer and the
    republished streams the loader is as before, nothing was sent and
    [lastRequest] is still [null]. *)
Theorem C10_seek_prunes_first {B Str : Type} `{XvizStreamBuffer B Str}
    (TIME_WINDOW : Z) (clampTime : option Message -> Z -> Z)
    (t : Z) (s : Loader B Str) :
  let c := clampTime (st_metadata s) t in
  let b' := setCurrentTime c (streamBuffer s) in
  let changed := prune_changes c (streamBuffer s) in
  let s' := fst (seek TIME_WINDOW clampTime t s) in
  streamBuffer s' = b' /\
  st_streams s' = (if changed then Some (getStreams b') else st_streams s) /\
  count is_set_streams (log s')
  = (count is_set_streams (log s) + if changed then 1 else 0)%nat /\
  (lastRequest s = None ->
   seek TIME_WINDOW clampTime t s =
   (mkLoader (socket s) (requestParams s) None (retrySettings s) b'
             (xvizHandler s) (Num c) (st_metadata s)
             (if changed then Some (getStreams b') else st_streams s)
             (st_logSynchronizer s)
             (log s ++ if changed then [SetKey "streams"] else []),
    Normal)).
Proof.
  intros c b' changed s'.
  destruct (seek_buffer_streams TIME_WINDOW clampTime t s) as (Hb & Hs & Hc).
  destruct (after_prune_streams clampTime t s) as (Hs1 & Hc1).
  split; [exact (eq_trans Hb (after_prune_buffer clampTime t s))|].
  split; [exact (eq_trans Hs Hs1)|].
  split; [exact (eq_trans Hc Hc1)|].
  intros Hlr. rewrite seek_unfold, Hlr. cbv zeta. f_equal.
  unfold after_prune. fold c. fold changed.
  destruct s as [sock rp lr rs b xh ts md strs sync lg]. cbn in Hlr. subst lr.
  destruct changed; cbn.
  - reflexivity.
  - rewrite app_nil_r. reflexivity.
Qed.

Lemma C10_seek_prunes_first_witness :
  lastRequest (fst (seek 2 Scenario.clampTime 100 (Scenario.fresh Scenario.options)))
  = None /\
  log (fst (seek 2 Scenario.clampTime 100 (Scenario.fresh Scenario.options))) = [].
Proof.
  destruct (C10_seek_prunes_first 2 Scenario.clampTime 100
              (Scenario.fresh Scenario.options)) as (_ & _ & _ & W).
  rewrite (W eq_refl). split; reflexivity.
Defined.

(** C7.  When the planner returns duration [0] for a seek, the seek
    ends after its pruning step: no play directive, no close, no
    connect, and [lastRequest] is what it was. *)
Theorem C7_zero_duration_never_sent {B Str : Type} `{XvizStreamBuffer B Str}
    (TIME_WINDOW : Z) (clampTime : option Message -> Z -> Z)
    (t : Z) (s : Loader B Str) :
  let c := clampTime (st_metadata s) t in
  duration (updateSocketRequestParams TIME_WINDOW (Num (c - TIME_WINDOW))
              (requestParams s) (setCurrentTime c (streamBuffer s))) = 0 ->
  let s' := fst (seek TIME_WINDOW clampTime t s) in
  seek TIME_WINDOW clampTime t s = (after_prune clampTime t s, Normal) /\
  lastRequest s' = lastRequest s /\
  socket s' = socket s /\
  xvizHandler s' = xvizHandler s /\
  requests (log s') = requests (log s).
Proof.
  intros c Hzero s'.
  assert (Hseek : seek TIME_WINDOW clampTime t s = (after_prune clampTime t s, Normal)).
  { rewrite seek_unfold. cbv zeta. fold c. rewrite Hzero. cbn [Z.eqb].
    destruct (lastRequest s); [|reflexivity].
    destruct (_ && _); reflexivity. }
  subst s'. rewrite Hseek. cbn [fst].
  destruct (after_prune_frame clampTime t s) as (Hso & _ & Hlr & Hxh & _ & _ & Hrq).
  repeat split; assumption.
Qed.

(** [playing_ahead] sought to [114]: outside the last window
    [[100, 112]], and [112], the start of the new window, is already
    buffered. *)
Lemma C7_zero_duration_never_sent_witness :
  lastRequest (fst (seek 2 Scenario.clampTime 114 Scenario.playing_ahead))
  = lastRequest Scenario.playing_ahead /\
  requests (log (fst (seek 2 Scenario.clampTime 114 Scenario.playing_ahead)))
  = requests (log Scenario.playing_ahead).
Proof.
  destruct (C7_zero_duration_never_sent 2 Scenario.clampTime 114
              Scenario.playing_ahead) as (_ & Wlr & _ & _ & Wrq).
  - vm_compute. reflexivity.
  - exact (conj Wlr Wrq).
Defined.

(** The witness of C7 does reach the planner: [114] is not covered by
    the last request. *)
Example playing_ahead_seek_114_not_covered :
  exists last,
    lastRequest Scenario.playing_ahead = Some last /\
    js_geb (Num (114 - 2)) (timestamp last)
    && js_leb (Num 114) (js_add (timestamp last) (chunkSize last)) = false.
Proof.
  exists (derive Scenario.params (Num 100) 12 12).
  split; vm_compute; reflexivity.
Qed.

(** C2, as the specification states it, fails: right after the metadata
    the last request is [[100, 112]]; [100] and [105] both lie in
    [[100, 100 + 12 - 2]], yet seeking to [100] sends a play directive
    (its buffer start, [98], is before the last request). *)
Lemma C2_counterexample :
  exists last,
    lastRequest Scenario.ready = Some last /\
    in_spec_interval 2 last 100 /\
    in_spec_interval 2 last 105 /\
    ~ seeks_issue_nothing 2 Scenario.clampTime 100 105 Scenario.ready.
Proof.
  exists (derive (Scenario.params_of Scenario.options_no_start) (Num 100) 12 12).
  split; [vm_compute; reflexivity|].
  split; [vm_compute; split; discriminate|].
  split; [vm_compute; split; discriminate|].
  unfold seeks_issue_nothing. vm_compute. discriminate.
Qed.

(** C2 (amended).  Idempotent seek: for two timestamps that, once
    clamped, both lie in
    [[lastRequest.timestamp + TIME_WINDOW, lastRequest.timestamp + lastRequest.chunkSize]],
    [seek(t1)] followed by [seek(t2)] issues nothing: no play
    directive, no close, no connect, and [lastRequest] is unchanged. *)
Theorem C2_idempotent_seek {B Str : Type} `{XvizStreamBuffer B Str}
    (TIME_WINDOW : Z) (clampTime : option Message -> Z -> Z)
    (t1 t2 : Z) (s : Loader B Str) (last : RequestParams) :
  lastRequest s = Some last ->
  in_covered_interval TIME_WINDOW last (clampTime (st_metadata s) t1) ->
  in_covered_interval TIME_WINDOW last (clampTime (st_metadata s) t2) ->
  let r1 := seek TIME_WINDOW clampTime t1 s in
  let r2 := seek TIME_WINDOW clampTime t2 (fst r1) in
  snd r1 = Normal /\ snd r2 = Normal /\
  lastRequest (fst r2) = Some last /\
  socket (fst r2) = socket s /\
  seeks_issue_nothing TIME_WINDOW clampTime t1 t2 s.
Proof.
  intros Hlr H1 H2.
  assert (Hcov : forall t (x : Loader B Str),
             lastRequest x = Some last ->
             in_covered_interval TIME_WINDOW last (clampTime (st_metadata x) t) ->
             seek TIME_WINDOW clampTime t x = (after_prune clampTime t x, Normal)).
  { intros t x Hx Hin. rewrite seek_unfold, Hx. cbv zeta.
    unfold in_covered_interval in Hin.
    destruct (timestamp last) as [|lt]; [contradiction|].
    destruct (chunkSize last) as [|cs]; [contradiction|].
    cbn [js_geb js_leb js_add].
    replace (clampTime (st_metadata x) t - TIME_WINDOW >=? lt) with true
      by (symmetry; rewrite Z.geb_leb; apply Z.leb_le; lia).
    replace (clampTime (st_metadata x) t <=? lt + cs) with true
      by (symmetry; apply Z.leb_le; lia).
    reflexivity. }
  destruct (after_prune_frame clampTime t1 s) as (Hso1 & _ & Hlr1 & _ & Hmd1 & _ & Hrq1).
  cbv zeta in Hso1, Hlr1, Hmd1, Hrq1.
  set (s1 := after_prune clampTime t1 s) in *.
  destruct (after_prune_frame clampTime t2 s1) as (Hso2 & _ & Hlr2 & _ & _ & _ & Hrq2).
  cbv zeta in Hso2, Hlr2, Hrq2.
  assert (E1 : seek TIME_WINDOW clampTime t1 s = (s1, Normal)) by (apply Hcov; assumption).
  assert (E2 : seek TIME_WINDOW clampTime t2 s1 = (after_prune clampTime t2 s1, Normal)).
  { apply Hcov; [congruence|]. rewrite Hmd1. assumption. }
  cbv zeta. unfold seeks_issue_nothing. rewrite E1. cbn [fst snd]. rewrite E2.
  cbn [fst snd]. repeat split; congruence.
Qed.

Lemma C2_idempotent_seek_witness :
  seeks_issue_nothing 2 Scenario.clampTime 103 105 Scenario.playing.
Proof.
  destruct (C2_idempotent_seek 2 Scenario.clampTime 103 105 Scenario.playing
              (derive Scenario.params (Num 100) 12 12))
    as (_ & _ & _ & _ & W).
  - vm_compute. reflexivity.
  - vm_compute. split; discriminate.
  - vm_compute. split; discriminate.
  - exact W.
Defined.

(** ** Message dispatch *)

Section DispatchFacts.

Context {B Str : Type} `{XvizStreamBuffer B Str}.
Variable TIME_WINDOW : Z.

Ltac log_count :=
  cbn -[count]; rewrite ?count_app; cbn; rewrite ?Nat.add_0_r; try reflexivity.

Lemma count_tell (f : Effect -> bool) (e : Effect) (s : Loader B Str) :
  count f (log (tell e s)) = (count f (log s) + if f e then 1 else 0)%nat.
Proof.
  unfold tell. cbn -[count]. rewrite count_app. unfold count at 2. cbn.
  destruct (f e); reflexivity.
Qed.

(** A timeslice that leaves the version token alone: the buffer takes
    the insert and an ['update'] is emitted, nothing else. *)
Lemma timeslice_unchanged (m : Message) (s : Loader B Str) :
  type m = TIMESLICE ->
  insert_changes m (streamBuffer s) = false ->
  _onWSMessage TIME_WINDOW m s
  = (emit (Update m) (with_streamBuffer (insert m (streamBuffer s)) s), Normal).
Proof.
  intros Hty Hch. unfold _onWSMessage. rewrite Hty.
  unfold insert_changes in Hch. apply negb_false_iff in Hch.
  cbn [streamBuffer with_streamBuffer]. rewrite Hch. reflexivity.
Qed.

(** A timeslice that moves the version token: streams republished, the
    synchronizer's cache reset; without a synchronizer the reset
    throws and no ['update'] follows. *)
Lemma timeslice_changed (m : Message) (s : Loader B Str) :
  type m = TIMESLICE ->
  insert_changes m (streamBuffer s) = true ->
  let b' := insert m (streamBuffer s) in
  let s1 := set_streams (getStreams b') (with_streamBuffer b' s) in
  _onWSMessage TIME_WINDOW m s
  = match st_logSynchronizer s with
    | Some sync =>
        (emit (Update m)
           (with_logSynchronizer (Some (mkSync (sync_start_time sync) None)) s1),
         Normal)
    | None => (s1, Thrown TypeError)
    end.
Proof.
  intros Hty Hch. unfold _onWSMessage. rewrite Hty.
  unfold insert_changes in Hch. apply negb_true_iff in Hch.
  cbn [streamBuffer with_streamBuffer]. rewrite Hch. reflexivity.
Qed.

(** Metadata after metadata is dropped. *)
Lemma metadata_ignored (m md : Message) (s : Loader B Str) :
  type m = METADATA -> st_metadata s = Some md ->
  _onWSMessage TIME_WINDOW m s = (s, Normal).
Proof. intros Hty Hmd. unfold _onWSMessage. rewrite Hty, Hmd. reflexivity. Qed.

(** The first metadata is accepted: one synchronizer, one ['ready']. *)
Lemma metadata_accepted (m : Message) (h : nat) (s : Loader B Str) :
  type m = METADATA -> st_metadata s = None -> xvizHandler s = Some h ->
  let r := _onWSMessage TIME_WINDOW m s in
  snd r = Normal /\
  st_metadata (fst r) = Some m /\
  xvizHandler (fst r) = Some h /\
  st_logSynchronizer (fst r) = Some (mkSync (start_time m) None) /\
  lastRequest (fst r)
  = Some (updateSocketRequestParams TIME_WINDOW (start_time m)
            (requestParams s) (streamBuffer s)) /\
  count is_ready (log (fst r)) = S (count is_ready (log s)) /\
  count is_new_synchronizer (log (fst r)) = S (count is_new_synchronizer (log s)).
Proof.
  intros Hty Hmd Hxh. unfold _onWSMessage. rewrite Hty, Hmd.
  unfold handler_play. cbn -[count updateSocketRequestParams]. rewrite Hxh.
  cbn -[count updateSocketRequestParams]. repeat split; try assumption.
  - rewrite !count_app. cbn. rewrite !Nat.add_0_r. apply Nat.add_1_r.
  - rewrite !count_app. cbn. rewrite !Nat.add_0_r. apply Nat.add_1_r.
Qed.

(** Messages other than metadata neither publish metadata nor announce
    readiness. *)
Lemma non_metadata_frame (m : Message) (s : Loader B Str) :
  type m <> METADATA ->
  let s' := fst (_onWSMessage TIME_WINDOW m s) in
  st_metadata s' = st_metadata s /\
  xvizHandler s' = xvizHandler s /\
  count is_ready (log s') = count is_ready (log s) /\
  count is_new_synchronizer (log s') = count is_new_synchronizer (log s).
Proof.
  intros Hty. destruct (type m) eqn:Ety; [contradiction| | |].
  - destruct (insert_changes m (streamBuffer s)) eqn:Ech.
    + rewrite (timeslice_changed m s Ety Ech). cbv zeta.
      destruct (st_logSynchronizer s); repeat split; log_count.
    + rewrite (timeslice_unchanged m s Ety Ech). repeat split; log_count.
  - unfold _onWSMessage. rewrite Ety. repeat split; log_count.
  - unfold _onWSMessage. rewrite Ety. repeat split; log_count.
Qed.

(** Once metadata is held, no sequence of messages adds a ['ready'] or
    a synchronizer. *)
Lemma dispatch_after_metadata (ms : list Message) :
  forall (s : Loader B Str) md,
    st_metadata s = Some md ->
    let s' := dispatch_all TIME_WINDOW ms s in
    st_metadata s' = Some md /\
    count is_ready (log s') = count is_ready (log s) /\
    count is_new_synchronizer (log s') = count is_new_synchronizer (log s).
Proof.
  induction ms as [|m ms IH]; intros s md Hmd; cbn [dispatch_all].
  - repeat split; assumption.
  - destruct (type m) eqn:Hty.
    + rewrite (metadata_ignored m md s Hty Hmd). cbn [fst]. apply IH, Hmd.
    + destruct (non_metadata_frame m s) as (Hm & _ & Hr & Hn); [congruence|].
      cbv zeta in *.
      destruct (IH (fst (_onWSMessage TIME_WINDOW m s)) md) as (Hm' & Hr' & Hn');
        [congruence|]. cbv zeta in *. repeat split; congruence.
    + destruct (non_metadata_frame m s) as (Hm & _ & Hr & Hn); [congruence|].
      cbv zeta in *.
      destruct (IH (fst (_onWSMessage TIME_WINDOW m s)) md) as (Hm' & Hr' & Hn');
        [congruence|]. cbv zeta in *. repeat split; congruence.
    + destruct (non_metadata_frame m s) as (Hm & _ & Hr & Hn); [congruence|].
      cbv zeta in *.
      destruct (IH (fst (_onWSMessage TIME_WINDOW m s)) md) as (Hm' & Hr' & Hn');
        [congruence|]. cbv zeta in *. repeat split; congruence.
Qed.

(** Before metadata is held, a sequence adds one ['ready'] and one
    synchronizer if it contains a metadata message, none otherwise. *)
Lemma dispatch_before_metadata (ms : list Message) :
  forall (s : Loader B Str) h,
    st_metadata s = None -> xvizHandler s = Some h ->
    let s' := dispatch_all TIME_WINDOW ms s in
    let n := if existsb is_metadata ms then 1%nat else 0%nat in
    count is_ready (log s') = (count is_ready (log s) + n)%nat /\
    count is_new_synchronizer (log s')
    = (count is_new_synchronizer (log s) + n)%nat.
Proof.
  induction ms as [|m ms IH]; intros s h Hmd Hxh; cbn [dispatch_all existsb].
  - cbn. rewrite !Nat.add_0_r. split; reflexivity.
  - unfold is_metadata at 1 3. destruct (type m) eqn:Hty; cbn [orb].
    + destruct (metadata_accepted m h s Hty Hmd Hxh) as (_ & Hm & _ & _ & _ & Hr & Hn).
      cbv zeta in *.
      destruct (dispatch_after_metadata ms _ m Hm) as (_ & Hr' & Hn').
      cbv zeta in *. rewrite Hr', Hn', Hr, Hn, !Nat.add_1_r. split; reflexivity.
    + destruct (non_metadata_frame m s) as (Hm & Hx & Hr & Hn); [congruence|].
      cbv zeta in *.
      destruct (IH (fst (_onWSMessage TIME_WINDOW m s)) h) as (Hr' & Hn');
        [congruence | congruence |]. cbv zeta in *. split; congruence.
    + destruct (non_metadata_frame m s) as (Hm & Hx & Hr & Hn); [congruence|].
      cbv zeta in *.
      destruct (IH (fst (_onWSMessage TIME_WINDOW m s)) h) as (Hr' & Hn');
        [congruence | congruence |]. cbv zeta in *. split; congruence.
    + destruct (non_metadata_frame m s) as (Hm & Hx & Hr & Hn); [congruence|].
      cbv zeta in *.
      destruct (IH (fst (_onWSMessage TIME_WINDOW m s)) h) as (Hr' & Hn');
        [congruence | congruence |]. cbv zeta in *. split; congruence.
Qed.

End DispatchFacts.

(** C4, as the specification states it, fails: with the playhead at
    [105] the buffer window is [[95, 115]]; a timeslice at [200] is
    outside it, the buffer refuses it and keeps its version token, and
    the cache the synchronizer had built stays in place. *)
Lemma C4_counterexample :
  type (Scenario.slice 200) = TIMESLICE /\
  insert_changes (Scenario.slice 200) (streamBuffer Scenario.sought_cached) = false /\
  ~ cache_cleared
      (fst (_onWSMessage 2 (Scenario.slice 200) Scenario.sought_cached)).
Proof.
  split; [reflexivity|]. split; [vm_compute; reflexivity|].
  intros Hclear.
  specialize (Hclear (mkSync (Num 100) (Some [Scenario.slice 112; Scenario.slice 100]))).
  assert (Hsync : st_logSynchronizer
                    (fst (_onWSMessage 2 (Scenario.slice 200) Scenario.sought_cached))
                  = Some (mkSync (Num 100)
                            (Some [Scenario.slice 112; Scenario.slice 100])))
    by (vm_compute; reflexivity).
  specialize (Hclear Hsync). discriminate Hclear.
Qed.

(** C4 (amended).  With a synchronizer in place, dispatching a
    timeslice whose insertion changes the buffer's version token
    clears the synchronizer's cached reverse-time index; a timeslice
    that leaves the version token unchanged leaves the synchronizer,
    cache included, as it was. *)
Theorem C4_cache_cleared_on_change {B Str : Type} `{XvizStreamBuffer B Str}
    (TIME_WINDOW : Z) (m : Message) (s : Loader B Str) (sync : StreamSynchronizer) :
  type m = TIMESLICE ->
  st_logSynchronizer s = Some sync ->
  let s' := fst (_onWSMessage TIME_WINDOW m s) in
  st_logSynchronizer s'
  = Some (if insert_changes m (streamBuffer s)
          then mkSync (sync_start_time sync) None
          else sync) /\
  (insert_changes m (streamBuffer s) = true -> cache_cleared s').
Proof.
  intros Hty Hsync s'. subst s'.
  destruct (insert_changes m (streamBuffer s)) eqn:Ech.
  - rewrite (timeslice_changed TIME_WINDOW m s Hty Ech). cbv zeta.
    rewrite Hsync. cbn. split; [reflexivity|].
    intros _ sync' Heq. injection Heq as <-. reflexivity.
  - rewrite (timeslice_unchanged TIME_WINDOW m s Hty Ech). cbn.
    split; [exact Hsync | discriminate].
Qed.

Lemma C4_cache_cleared_on_change_witness :
  cache_cleared (fst (_onWSMessage 2 (Scenario.slice 105) Scenario.playing_cached)).
Proof.
  destruct (C4_cache_cleared_on_change 2 (Scenario.slice 105) Scenario.playing_cached
              (mkSync (Num 100) (Some [Scenario.slice 112; Scenario.slice 100])))
    as (_ & W).
  - reflexivity.
  - vm_compute. reflexivity.
  - apply W. vm_compute. reflexivity.
Defined.

(** C5.  Version-gated republish, unconditional update: a timeslice
    whose insertion leaves the version token unchanged does not touch
    the published streams and adds exactly one effect to the log, the
    ['update'] event; a timeslice whose insertion changes the version
    token republishes the streams from the buffer. *)
Theorem C5_version_gated_republish {B Str : Type} `{XvizStreamBuffer B Str}
    (TIME_WINDOW : Z) (m : Message) (s : Loader B Str) :
  type m = TIMESLICE ->
  let b' := insert m (streamBuffer s) in
  let r := _onWSMessage TIME_WINDOW m s in
  (insert_changes m (streamBuffer s) = false ->
   snd r = Normal /\
   st_streams (fst r) = st_streams s /\
   log (fst r) = log s ++ [Emit (Update m)] /\
   count is_set_streams (log (fst r)) = count is_set_streams (log s) /\
   count is_update (log (fst r)) = S (count is_update (log s))) /\
  (insert_changes m (streamBuffer s) = true ->
   st_streams (fst r) = Some (getStreams b') /\
   count is_set_streams (log (fst r)) = S (count is_set_streams (log s)) /\
   (st_logSynchronizer s <> None ->
    snd r = Normal /\
    log (fst r) = log s ++ [SetKey "streams"; Emit (Update m)])).
Proof.
  intros Hty b' r. subst r. split; intros Ech.
  - rewrite (timeslice_unchanged TIME_WINDOW m s Hty Ech).
    cbn -[count]. repeat split; rewrite count_app; cbn;
      [apply Nat.add_0_r | apply Nat.add_1_r].
  - rewrite (timeslice_changed TIME_WINDOW m s Hty Ech). cbv zeta.
    destruct (st_logSynchronizer s) as [sync|]; cbn -[count].
    + split; [reflexivity|]. split.
      * rewrite !count_app. cbn. rewrite Nat.add_0_r. apply Nat.add_1_r.
      * intros _. split; [reflexivity|]. rewrite <- app_assoc. reflexivity.
    + split; [reflexivity|]. split.
      * rewrite count_app. cbn. apply Nat.add_1_r.
      * intros Hn. contradiction.
Qed.

Lemma C5_version_gated_republish_witness :
  (log (fst (_onWSMessage 2 (Scenario.slice 200) Scenario.sought))
   = log Scenario.sought ++ [Emit (Update (Scenario.slice 200))]) /\
  (st_streams (fst (_onWSMessage 2 (Scenario.slice 105) Scenario.playing))
   = Some (getStreams (insert (Scenario.slice 105) (streamBuffer Scenario.playing)))).
Proof.
  destruct (C5_version_gated_republish 2 (Scenario.slice 200) Scenario.sought eq_refl)
    as (Wsame & _).
  destruct (C5_version_gated_republish 2 (Scenario.slice 105) Scenario.playing eq_refl)
    as (_ & Wnew).
  destruct Wsame as (_ & _ & Wlog & _); [vm_compute; reflexivity|].
  destruct Wnew as (Wstr & _); [vm_compute; reflexivity|].
  exact (conj Wlog Wstr).
Defined.

(** With metadata held and a synchronizer stored, a message sequence
    leaves both in place (a timeslice resets the synchronizer's cache,
    which is empty already). *)
Lemma dispatch_keeps_synchronizer {B Str : Type} `{XvizStreamBuffer B Str}
    (TIME_WINDOW : Z) (ms : list Message) :
  forall (s : Loader B Str) (md : Message) (start : jsnum),
    st_metadata s = Some md ->
    st_logSynchronizer s = Some (mkSync start None) ->
    st_metadata (dispatch_all TIME_WINDOW ms s) = Some md /\
    st_logSynchronizer (dispatch_all TIME_WINDOW ms s) = Some (mkSync start None).
Proof.
  induction ms as [|m ms IH]; intros s md start Hmd Hsy; cbn [dispatch_all].
  - split; assumption.
  - destruct (type m) eqn:Hty.
    + rewrite (metadata_ignored TIME_WINDOW m md s Hty Hmd). cbn [fst].
      apply IH; assumption.
    + apply IH.
      * destruct (non_metadata_frame TIME_WINDOW m s) as (Hm & _); [congruence|].
        cbv zeta in Hm. congruence.
      * destruct (insert_changes m (streamBuffer s)) eqn:Ech.
        -- rewrite (timeslice_changed TIME_WINDOW m s Hty Ech). cbv zeta.
           rewrite Hsy. reflexivity.
        -- rewrite (timeslice_unchanged TIME_WINDOW m s Hty Ech). exact Hsy.
    + apply IH; unfold _onWSMessage; rewrite Hty; assumption.
    + apply IH; unfold _onWSMessage; rewrite Hty; assumption.
Qed.

(** The first metadata message of a sequence is the one that is kept,
    and the synchronizer stored is the one built from it. *)
Lemma dispatch_first_metadata {B Str : Type} `{XvizStreamBuffer B Str}
    (TIME_WINDOW : Z) (ms : list Message) :
  forall (s : Loader B Str) (h : nat),
    st_metadata s = None -> xvizHandler s = Some h ->
    existsb is_metadata ms = true ->
    exists first,
      find is_metadata ms = Some first /\
      st_metadata (dispatch_all TIME_WINDOW ms s) = Some first /\
      st_logSynchronizer (dispatch_all TIME_WINDOW ms s)
      = Some (mkSync (start_time first) None).
Proof.
  induction ms as [|m ms IH]; intros s h Hmd Hxh Hex; [discriminate|].
  cbn [dispatch_all find existsb] in *. unfold is_metadata at 1 in Hex.
  unfold is_metadata at 1. destruct (type m) eqn:Hty; cbn [orb] in Hex.
  - exists m. split; [reflexivity|].
    destruct (metadata_accepted TIME_WINDOW m h s Hty Hmd Hxh)
      as (_ & Hm & _ & Hsy & _). cbv zeta in Hm, Hsy.
    apply (dispatch_keeps_synchronizer TIME_WINDOW ms _ m (start_time m) Hm Hsy).
  - destruct (non_metadata_frame TIME_WINDOW m s) as (Hm & Hx & _); [congruence|].
    cbv zeta in Hm, Hx. apply (IH _ h); congruence.
  - destruct (non_metadata_frame TIME_WINDOW m s) as (Hm & Hx & _); [congruence|].
    cbv zeta in Hm, Hx. apply (IH _ h); congruence.
  - destruct (non_metadata_frame TIME_WINDOW m s) as (Hm & Hx & _); [congruence|].
    cbv zeta in Hm, Hx. apply (IH _ h); congruence.
Qed.

(** C6.  Metadata idempotence: a message sequence that contains a
    metadata message (two or more included), handled by a loader that
    holds no metadata yet, emits exactly one ['ready'] and builds
    exactly one synchronizer: the one built from the first metadata
    message, which is the synchronizer the loader holds at the end,
    as that message is the metadata it holds; and once metadata is
    held, a metadata message leaves the whole loader, log included, as
    it was. *)
Theorem C6_metadata_idempotence {B Str : Type} `{XvizStreamBuffer B Str}
    (TIME_WINDOW : Z) (ms : list Message) (s : Loader B Str) (h : nat) :
  st_metadata s = None ->
  xvizHandler s = Some h ->
  existsb is_metadata ms = true ->
  let s' := dispatch_all TIME_WINDOW ms s in
  count is_ready (log s') = S (count is_ready (log s)) /\
  count is_new_synchronizer (log s') = S (count is_new_synchronizer (log s)) /\
  (forall (x : Loader B Str) (m : Message),
      type m = METADATA -> st_metadata x <> None ->
      _onWSMessage TIME_WINDOW m x = (x, Normal)) /\
  (exists first,
      find is_metadata ms = Some first /\
      st_metadata s' = Some first /\
      st_logSynchronizer s' = Some (mkSync (start_time first) None)).
Proof.
  intros Hmd Hxh Hex s'.
  destruct (dispatch_before_metadata TIME_WINDOW ms s h Hmd Hxh) as (Hr & Hn).
  cbv zeta in Hr, Hn. rewrite Hex, Nat.add_1_r in Hr, Hn.
  split; [exact Hr|]. split; [exact Hn|]. split.
  - intros x m Hty Hx. destruct (st_metadata x) as [md|] eqn:Ex; [|contradiction].
    exact (metadata_ignored TIME_WINDOW m md x Hty Ex).
  - exact (dispatch_first_metadata TIME_WINDOW ms s h Hmd Hxh Hex).
Qed.

(** A fresh loader, opened, that receives metadata, a timeslice and
    the metadata again. *)
Lemma C6_metadata_idempotence_witness :
  count is_ready
    (log (dispatch_all 2 [Scenario.metadata; Scenario.slice 100; Scenario.metadata]
            (Scenario.after Scenario.options [])))
  = 1%nat /\
  st_logSynchronizer
    (dispatch_all 2 [Scenario.metadata; Scenario.slice 100; Scenario.metadata]
       (Scenario.after Scenario.options []))
  = Some (mkSync (Num 100) None).
Proof.
  destruct (C6_metadata_idempotence 2
              [Scenario.metadata; Scenario.slice 100; Scenario.metadata]
              (Scenario.after Scenario.options []) 0%nat)
    as (W & _ & _ & (first & Wf & _ & Ws)).
  - reflexivity.
  - reflexivity.
  - reflexivity.
  - split; [rewrite W; reflexivity|].
    injection Wf as <-. exact Ws.
Defined.

(** ** Connection attempts *)

Section ConnectFacts.

Context {B Str : Type} `{XvizStreamBuffer B Str}.
Variable TIME_WINDOW : Z.

Ltac log_count :=
  cbn -[count]; rewrite ?count_app; cbn; rewrite ?Nat.add_0_r; try reflexivity.

Lemma isAbnormalClosure_spec (code : jsnum) :
  isAbnormalClosure code = true <->
  exists c, code = Num c /\ c > 1000 /\ c <> 1005.
Proof.
  unfold isAbnormalClosure. destruct code as [|c]; cbn.
  - split; [discriminate | intros (c & Hc & _); discriminate].
  - rewrite andb_true_iff, negb_true_iff, Z.eqb_neq, Z.gtb_ltb, Z.ltb_lt.
    split.
    + intros [Hgt Hne]. exists c. repeat split; [lia | assumption].
    + intros (c' & Hc & Hgt & Hne). injection Hc as <-. split; [lia | assumption].
Qed.

(** Error events before the close event of a socket that never opened
    are reported one by one; the close event then rejects the attempt,
    and the handler asks for a retry. *)
Lemma ws_deliver_refused (h errors : nat) (code : jsnum) :
  isAbnormalClosure code = true ->
  forall s : Loader B Str,
    ws_deliver TIME_WINDOW h (repeat OnError errors ++ [OnClose code]) Pending s
    = (with_log (log s ++ repeat (Emit (Error ErrErrorEvent)) errors
                   ++ [Debug "socket_closed"; Emit (Error (ErrCloseEvent code))]) s,
       RejectedRetry).
Proof.
  intros Hab. induction errors as [|k IH]; intros s.
  - destruct s. cbn. rewrite Hab. cbn.
    unfold _onWSError, _onWSClose, emit, tell, with_log. cbn.
    rewrite <- app_assoc. reflexivity.
  - cbn [repeat app ws_deliver]. rewrite IH.
    destruct s. unfold _onWSError, emit, tell, with_log. cbn.
    rewrite <- app_assoc. reflexivity.
Qed.

(** One refused attempt: a socket is built, the close event is
    reported as an ['error'], the socket slot stays as it was. *)
Lemma attempt_refused (h : nat) (behaviour : option (list WsEvent)) (s : Loader B Str) :
  closes_abnormally behaviour ->
  let r := attempt TIME_WINDOW h behaviour s in
  snd r = RejectedRetry /\
  socket (fst r) = socket s /\
  requestParams (fst r) = requestParams s /\
  count is_new_socket (log (fst r)) = S (count is_new_socket (log s)) /\
  count is_close_error (log (fst r)) = S (count is_close_error (log s)) /\
  count is_terminal_error (log (fst r)) = count is_terminal_error (log s).
Proof.
  intros (errors & code & -> & Hab). unfold attempt.
  rewrite (ws_deliver_refused h errors code Hab). cbn -[count].
  assert (Hrep : forall f, f (Emit (Error ErrErrorEvent)) = false ->
                           count f (repeat (Emit (Error ErrErrorEvent)) errors) = 0%nat).
  { intros f Hf. induction errors as [|k IH]; [reflexivity|].
    unfold count in *. cbn. rewrite Hf. exact IH. }
  repeat split; rewrite !count_app, ?Hrep by reflexivity; cbn; lia.
Qed.

(** A session against a transport that refuses every socket: with [k]
    retries it makes [k + 1] attempts, then gives up with one terminal
    ['error'], which is the last thing it does. *)
Lemma session_refused (transport : nat -> option (list WsEvent)) :
  (forall n, closes_abnormally (transport n)) ->
  forall (k h : nat) (s : Loader B Str),
    let r := session TIME_WINDOW k transport h s in
    snd r = Exhausted /\
    socket (fst r) = socket s /\
    count is_new_socket (log (fst r)) = (count is_new_socket (log s) + S k)%nat /\
    count is_close_error (log (fst r)) = (count is_close_error (log s) + S k)%nat /\
    count is_terminal_error (log (fst r)) = S (count is_terminal_error (log s)) /\
    exists l, log (fst r) = l ++ [Emit (Error ErrUndefined)].
Proof.
  intros Hall. induction k as [|k IH]; intros h s; cbn [session].
  - destruct (attempt_refused h (transport h) s (Hall h))
      as (Hr & Hso & _ & Hn & Hc & Ht).
    cbv zeta in *.
    destruct (attempt TIME_WINDOW h (transport h) s) as [s1 r1]. cbn [fst snd] in *.
    subst r1. cbn -[count]. repeat split; try assumption.
    + rewrite count_app, Hn. cbn. lia.
    + rewrite count_app, Hc. cbn. lia.
    + rewrite count_app, Ht. cbn. lia.
    + exists (log s1). reflexivity.
  - destruct (attempt_refused h (transport h) s (Hall h))
      as (Hr & Hso & _ & Hn & Hc & Ht).
    cbv zeta in *.
    destruct (attempt TIME_WINDOW h (transport h) s) as [s1 r1]. cbn [fst snd] in *.
    subst r1.
    destruct (IH (S h) s1) as (Hr' & Hso' & Hn' & Hc' & Ht' & Hl').
    cbv zeta in *. repeat split; try congruence; try exact Hl'.
    + rewrite Hn', Hn. lia.
    + rewrite Hc', Hc. lia.
Qed.

End ConnectFacts.

(** C8.  A failed connection attempt calls [retry()] if and only if
    the close code is greater than [1000] and is not [1005], or no
    socket is recorded; so a clean closure while a socket is recorded
    does not retry, and the close event of an attempt that had reached
    Open (its promise already resolved) never reaches the retry
    decision.  While retries are left, a further attempt is made
    exactly when [retry()] was called. *)
Theorem C8_retry_iff_abnormal_or_unopened {B Str : Type} `{XvizStreamBuffer B Str}
    (TIME_WINDOW : Z) (s : Loader B Str) :
  (forall event : ErrorPayload,
      snd (on_rejected event s) = true <->
      (exists c, code_of event = Num c /\ c > 1000 /\ c <> 1005) \/ socket s = None) /\
  (forall (h : nat) (code : jsnum) (rest : list WsEvent),
      snd (ws_deliver TIME_WINDOW h (OnClose code :: rest) Pending s) = RejectedRetry <->
      (exists c, code = Num c /\ c > 1000 /\ c <> 1005) \/ socket s = None) /\
  (forall code : jsnum,
      socket s <> None -> (code = Num 1000 \/ code = Num 1005 \/ code = Undef) ->
      snd (on_rejected (ErrCloseEvent code) s) = false) /\
  (forall (h : nat) (code : jsnum) (rest : list WsEvent),
      ws_deliver TIME_WINDOW h (OnClose code :: rest) Resolved s
      = (_onWSClose code s, Resolved)) /\
  (forall (k h : nat) (transport : nat -> option (list WsEvent)),
      session TIME_WINDOW (S k) transport h s
      = match snd (attempt TIME_WINDOW h (transport h) s) with
        | RejectedRetry =>
            session TIME_WINDOW k transport (S h)
                    (fst (attempt TIME_WINDOW h (transport h) s))
        | RejectedNoRetry => (fst (attempt TIME_WINDOW h (transport h) s), GaveUp)
        | Resolved => (fst (attempt TIME_WINDOW h (transport h) s), Connected)
        | Pending => (fst (attempt TIME_WINDOW h (transport h) s), Waiting)
        end).
Proof.
  assert (Hflag : forall event : ErrorPayload,
             snd (on_rejected event s) = true <->
             (exists c, code_of event = Num c /\ c > 1000 /\ c <> 1005)
             \/ socket s = None).
  { intros event. unfold on_rejected, isOpen, _onWSError, emit, tell. cbn.
    rewrite orb_true_iff, isAbnormalClosure_spec, negb_true_iff.
    destruct (socket s); split; intros [Ha|Hs]; auto; discriminate. }
  split; [exact Hflag|]. split; [|split; [|split]].
  - intros h code rest. cbn [ws_deliver]. unfold settle_rejected.
    specialize (Hflag (ErrCloseEvent code)).
    unfold on_rejected in *. cbn [snd fst code_of] in *.
    assert (Hsock : isOpen (_onWSError (ErrCloseEvent code) (_onWSClose code s))
                    = isOpen (_onWSError (ErrCloseEvent code) s)) by reflexivity.
    rewrite Hsock.
    destruct (isAbnormalClosure code
              || negb (isOpen (_onWSError (ErrCloseEvent code) s)));
      cbn [snd]; rewrite <- Hflag; split; congruence.
  - intros code Hsock Hcode.
    destruct (on_rejected (ErrCloseEvent code) s) as [s1 [|]] eqn:E; [|reflexivity].
    assert (Ht : snd (on_rejected (ErrCloseEvent code) s) = true) by (rewrite E; reflexivity).
    apply Hflag in Ht. cbn [code_of] in Ht.
    destruct Ht as [(c & Hc & Hgt & Hne)|Hnone]; [|contradiction].
    destruct Hcode as [ -> | [ -> | -> ] ]; try discriminate;
      injection Hc as <-; lia.
  - intros h code rest. reflexivity.
  - intros k h transport. cbn [session].
    destruct (attempt TIME_WINDOW h (transport h) s) as [s1 [ | | | ]]; reflexivity.
Qed.

(** C9.  Retry bound: with [retryAttempts = 3], no socket recorded
    and a transport on which every attempt closes abnormally before
    opening, [connect] builds the first socket and exactly three more
    (three reconnection attempts); after the last one fails a single
    terminal ['error'], the one that reports the exhausted retries, is
    emitted, and it is the last thing the session does; the loader
    then has no socket recorded and the session is over.  (Each of
    the four failed attempts has reported its own close event as an
    ['error'] before.) *)
Theorem C9_retry_bound {B Str : Type} `{XvizStreamBuffer B Str}
    (TIME_WINDOW : Z) (transport : nat -> option (list WsEvent)) (h : nat)
    (s : Loader B Str) :
  socket s = None ->
  retries (retrySettings s) = 3 ->
  (forall n, closes_abnormally (transport n)) ->
  let r := connect_run TIME_WINDOW transport h s in
  snd r = Some Exhausted /\
  socket (fst r) = None /\
  count is_new_socket (log (fst r)) = (count is_new_socket (log s) + 1 + 3)%nat /\
  count is_close_error (log (fst r)) = (count is_close_error (log s) + 4)%nat /\
  count is_terminal_error (log (fst r)) = S (count is_terminal_error (log s)) /\
  exists l, log (fst r) = l ++ [Emit (Error ErrUndefined)].
Proof.
  intros Hsock Hret Hall. unfold connect_run, connect. rewrite Hsock.
  set (s0 := tell (RetrySession (retries (retrySettings s)))
               (tell (Debug "stream_start") s)).
  assert (Hret0 : retries (retrySettings s0) = 3) by exact Hret.
  rewrite Hret0. change (Z.to_nat 3) with 3%nat.
  destruct (session_refused TIME_WINDOW transport Hall 3 h s0)
    as (Hr & Hso & Hn & Hc & Ht & Hl).
  cbv zeta in *.
  destruct (session TIME_WINDOW 3 transport h s0) as [s1 r1]. cbn [fst snd] in *.
  assert (Hlog0 : forall f, f (Debug "stream_start") = false ->
                            f (RetrySession (retries (retrySettings s))) = false ->
                            count f (log s0) = count f (log s)).
  { intros f H1 H2. subst s0. unfold tell. cbn -[count].
    rewrite !count_app. unfold count at 2 3. cbn. rewrite H1, H2. cbn. lia. }
  repeat split.
  - congruence.
  - rewrite Hso. exact Hsock.
  - rewrite Hn, Hlog0 by reflexivity. lia.
  - rewrite Hc, Hlog0 by reflexivity. lia.
  - rewrite Ht, Hlog0 by reflexivity. reflexivity.
  - exact Hl.
Qed.

Lemma Scenario_refusing_closes_abnormally (n : nat) :
  closes_abnormally (Scenario.refusing n).
Proof. exists 0%nat, (Num 1006). split; reflexivity. Defined.

(** The run against a transport refusing with code [1006]: four close
    events reported, then the terminal ['error']. *)
Example refusing_run_error_events :
  count is_close_error
    (log (fst (connect_run 2 Scenario.refusing 0 (Scenario.fresh Scenario.options))))
  = 4%nat /\
  count is_terminal_error
    (log (fst (connect_run 2 Scenario.refusing 0 (Scenario.fresh Scenario.options))))
  = 1%nat /\
  count is_error
    (log (fst (connect_run 2 Scenario.refusing 0 (Scenario.fresh Scenario.options))))
  = 5%nat.
Proof. vm_compute. repeat split. Qed.

Lemma C9_retry_bound_witness :
  snd (connect_run 2 Scenario.refusing 0 (Scenario.fresh Scenario.options))
  = Some Exhausted /\
  socket (fst (connect_run 2 Scenario.refusing 0 (Scenario.fresh Scenario.options)))
  = None.
Proof.
  destruct (C9_retry_bound 2 Scenario.refusing 0 (Scenario.fresh Scenario.options))
    as (Wr & Ws & _).
  - reflexivity.
  - reflexivity.
  - exact Scenario_refusing_closes_abnormally.
  - exact (conj Wr Ws).
Defined.

(** * Further properties of the loader *)

(** ** The planner *)

Section PlannerMore.

Context {B Str : Type} `{XvizStreamBuffer B Str}.
Variable TIME_WINDOW : Z.

Ltac bool_cases :=
  repeat match goal with
         | |- context [?a <=? ?b] => destruct (Z.leb_spec a b)
         | |- context [?a <? ?b] => destruct (Z.ltb_spec a b)
         | |- context [?a =? ?b] => destruct (Z.eqb_spec a b)
         end.

Lemma clampLoaded_cases (lr : option TimeRange) (start end_ : Z) :
  clampLoaded lr start end_ = start \/
  clampLoaded lr start end_ = end_ \/
  exists r, lr = Some r /\ clampLoaded lr start end_ = range_start r /\
            range_start r < end_ <= range_end r /\
            ~ (range_start r <= start < range_end r).
Proof.
  unfold clampLoaded. destruct lr as [r|]; [|auto].
  rewrite Z.gtb_ltb, Z.geb_leb. bool_cases; cbn; auto.
  all: right; right; exists r; repeat split; auto; lia.
Qed.

(** The planner on a known start, with its three steps named. *)
Lemma planner_on_start (t : jsnum) (p : RequestParams) (b : B) (start : Z) :
  plan_start t p = Some start ->
  let end_ := clampLoaded (getLoadedTimeRange b) start
                (start + chunkSizeOf TIME_WINDOW p) in
  let clamp := negb (duration p =? 0) && truthy (timestamp p) in
  let r := updateSocketRequestParams TIME_WINDOW t p b in
  match timestamp p with
  | Num it =>
      if clamp
      then timestamp r = Num (Z.max start it) /\
           duration r = Z.max 0 (Z.min end_ (it + duration p) - Z.max start it)
      else timestamp r = Num start /\ duration r = Z.max 0 (end_ - start)
  | Undef => timestamp r = Num start /\ duration r = Z.max 0 (end_ - start)
  end.
Proof.
  unfold plan_start, updateSocketRequestParams.
  destruct t as [|x], (timestamp p) as [|it] eqn:Ets; intros Hs;
    try discriminate; injection Hs as <-; cbv zeta.
  - destruct (negb (duration p =? 0) && truthy (Num it)); split; reflexivity.
  - split; reflexivity.
  - destruct (negb (duration p =? 0) && truthy (Num it)); split; reflexivity.
Qed.

End PlannerMore.

(** X1.  Once a start is known (the target or the initial timestamp is
    finite) the planned duration is never negative. *)
Theorem X1_planner_duration_nonneg {B Str : Type} `{XvizStreamBuffer B Str}
    (TIME_WINDOW : Z) (t : jsnum) (p : RequestParams) (b : B) :
  isFinite t || isFinite (timestamp p) = true ->
  0 <= duration (updateSocketRequestParams TIME_WINDOW t p b).
Proof. apply planner_duration_nonneg. Qed.

Lemma X1_planner_duration_nonneg_witness :
  0 <= duration (updateSocketRequestParams 2 (Num 200) Scenario.params Scenario.empty).
Proof.
  apply (X1_planner_duration_nonneg 2 (Num 200) Scenario.params Scenario.empty).
  reflexivity.
Defined.

(** X2.  The chunk size never exceeds the total duration, nor
    [bufferLength + TIME_WINDOW] when a buffer length is set, and every
    planned window carries it.  The window never reaches beyond
    [start + chunkSize] nor before [start]: its duration is
    [max(0, end - timestamp)] for a timestamp not before the start the
    planner works from and an end not beyond [start + chunkSize] (or
    [start], should the chunk size be negative).  So a window of
    positive duration begins before [start + chunkSize], and a chunk
    size that is not positive gives duration [0].  On the early return
    (no start known) the duration is the chunk size. *)
Theorem X2_planner_duration_bounded {B Str : Type} `{XvizStreamBuffer B Str}
    (TIME_WINDOW : Z) (t : jsnum) (p : RequestParams) (b : B) :
  let chunk := chunkSizeOf TIME_WINDOW p in
  let r := updateSocketRequestParams TIME_WINDOW t p b in
  chunk <= duration p /\
  (forall bl, bufferLength p = Num bl -> bl <> 0 -> chunk <= bl + TIME_WINDOW) /\
  chunkSize r = Num chunk /\
  match plan_start t p with
  | Some start =>
      exists ts end_,
        timestamp r = Num ts /\ start <= ts /\
        end_ <= Z.max start (start + chunk) /\
        duration r = Z.max 0 (end_ - ts) /\
        (0 < duration r -> ts < start + chunk) /\
        (chunk <= 0 -> duration r = 0)
  | None => duration r = chunk
  end.
Proof.
  intros chunk r. split; [|split; [|split]].
  - subst chunk. unfold chunkSizeOf. destruct (bufferLength p) as [|bl]; [lia|].
    destruct (truthy (Num bl)); lia.
  - intros bl Hbl Hnz. subst chunk. unfold chunkSizeOf. rewrite Hbl. cbn.
    destruct (Z.eqb_spec bl 0); [contradiction|]. cbn. lia.
  - apply planner_chunkSize.
  - destruct (plan_start t p) as [start|] eqn:Es.
    + pose proof (planner_on_start TIME_WINDOW t p b start Es) as Hp.
      cbv zeta in Hp. fold r chunk in Hp.
      set (e0 := clampLoaded (getLoadedTimeRange b) start (start + chunk)) in *.
      assert (Hend : e0 <= Z.max start (start + chunk)).
      { subst e0.
        destruct (clampLoaded_cases (getLoadedTimeRange b) start (start + chunk))
          as [E|[E|(r0 & _ & E & Hr & _)]]; rewrite E; lia. }
      destruct (timestamp p) as [|it].
      * destruct Hp as [Hts Hd]. exists start, e0. rewrite Hd.
        repeat split; try assumption; lia.
      * destruct (negb (duration p =? 0) && truthy (Num it)); destruct Hp as [Hts Hd].
        -- exists (Z.max start it), (Z.min e0 (it + duration p)). rewrite Hd.
           repeat split; try assumption; lia.
        -- exists start, e0. rewrite Hd. repeat split; try assumption; lia.
    + unfold plan_start in Es. subst r. unfold updateSocketRequestParams.
      destruct t, (timestamp p); try discriminate. reflexivity.
Qed.

(** X3.  No re-fetch: when the start of the requested window already
    lies inside the loaded range, the planned duration is [0],
    whatever the session bounds. *)
Theorem X3_planner_start_loaded {B Str : Type} `{XvizStreamBuffer B Str}
    (TIME_WINDOW : Z) (t : jsnum) (p : RequestParams) (b : B)
    (start : Z) (loaded : TimeRange) :
  plan_start t p = Some start ->
  getLoadedTimeRange b = Some loaded ->
  range_start loaded <= start < range_end loaded ->
  duration (updateSocketRequestParams TIME_WINDOW t p b) = 0.
Proof.
  intros Es Hl Hin.
  pose proof (planner_on_start TIME_WINDOW t p b start Es) as Hp. cbv zeta in Hp.
  rewrite Hl in Hp.
  assert (Hc : clampLoaded (Some loaded) start (start + chunkSizeOf TIME_WINDOW p) = start).
  { unfold clampLoaded. rewrite Z.gtb_ltb.
    destruct (Z.leb_spec (range_start loaded) start); [|lia].
    destruct (Z.ltb_spec start (range_end loaded)); [reflexivity|lia]. }
  rewrite Hc in Hp.
  destruct (timestamp p) as [|it].
  - destruct Hp as [_ ->]. lia.
  - destruct (negb (duration p =? 0) && truthy (Num it)); destruct Hp as [_ ->]; lia.
Qed.

Lemma X3_planner_start_loaded_witness :
  duration (updateSocketRequestParams 2 (Num 105) Scenario.params Scenario.loaded) = 0.
Proof.
  apply (X3_planner_start_loaded 2 (Num 105) Scenario.params Scenario.loaded
           105 (mkRange 100 112)).
  - reflexivity.
  - reflexivity.
  - cbn. lia.
Defined.

(** X4.  Catch-up fetch: when the start is not inside the loaded range
    but the end of the full chunk, [start + chunkSize], is, the window
    is cut at the start of the loaded range: its duration is
    [max(0, end - timestamp)] for an end not beyond [loaded.start], so
    a window of positive duration begins before [loaded.start]; with
    no initial timestamp configured the timestamp is the start and the
    duration is [max(0, loaded.start - start)]. *)
Theorem X4_planner_end_loaded {B Str : Type} `{XvizStreamBuffer B Str}
    (TIME_WINDOW : Z) (t : jsnum) (p : RequestParams) (b : B)
    (start : Z) (loaded : TimeRange) :
  plan_start t p = Some start ->
  getLoadedTimeRange b = Some loaded ->
  ~ (range_start loaded <= start < range_end loaded) ->
  range_start loaded < start + chunkSizeOf TIME_WINDOW p <= range_end loaded ->
  let r := updateSocketRequestParams TIME_WINDOW t p b in
  exists ts end_,
    timestamp r = Num ts /\ start <= ts /\
    end_ <= range_start loaded /\
    duration r = Z.max 0 (end_ - ts) /\
    (0 < duration r -> ts < range_start loaded) /\
    (timestamp p = Undef ->
     ts = start /\ duration r = Z.max 0 (range_start loaded - start)).
Proof.
  intros Es Hl Hout Hend r.
  pose proof (planner_on_start TIME_WINDOW t p b start Es) as Hp. cbv zeta in Hp.
  fold r in Hp. rewrite Hl in Hp.
  assert (Hc : clampLoaded (Some loaded) start (start + chunkSizeOf TIME_WINDOW p)
               = range_start loaded).
  { unfold clampLoaded. rewrite Z.gtb_ltb, Z.geb_leb.
    destruct (Z.leb_spec (range_start loaded) start);
      destruct (Z.ltb_spec start (range_end loaded)); cbn; try lia;
      destruct (Z.ltb_spec (range_start loaded) (start + chunkSizeOf TIME_WINDOW p));
      destruct (Z.leb_spec (start + chunkSizeOf TIME_WINDOW p) (range_end loaded));
      cbn; lia. }
  rewrite Hc in Hp.
  destruct (timestamp p) as [|it].
  - destruct Hp as [Hts Hd]. exists start, (range_start loaded). rewrite Hd.
    split; [assumption|]. split; [lia|]. split; [lia|]. split; [reflexivity|].
    split; [lia|]. intros _. split; reflexivity.
  - destruct (negb (duration p =? 0) && truthy (Num it)); destruct Hp as [Hts Hd].
    + exists (Z.max start it), (Z.min (range_start loaded) (it + duration p)).
      rewrite Hd.
      split; [assumption|]. split; [lia|]. split; [lia|]. split; [reflexivity|].
      split; [lia|]. discriminate.
    + exists start, (range_start loaded). rewrite Hd.
      split; [assumption|]. split; [lia|]. split; [lia|]. split; [reflexivity|].
      split; [lia|]. discriminate.
Qed.

(** A window asked for at [93] with [[100, 112)] loaded and no initial
    timestamp: it is [[93, 100]]. *)
Lemma X4_planner_end_loaded_witness :
  duration (updateSocketRequestParams 2 (Num 93)
              (Scenario.params_of Scenario.options_no_start) Scenario.loaded)
  = 7.
Proof.
  destruct (X4_planner_end_loaded 2 (Num 93)
              (Scenario.params_of Scenario.options_no_start) Scenario.loaded
              93 (mkRange 100 112)) as (ts & end_ & _ & _ & _ & _ & _ & W).
  - reflexivity.
  - reflexivity.
  - cbn. lia.
  - vm_compute. split; [reflexivity | discriminate].
  - destruct (W eq_refl) as [_ Wd]. rewrite Wd. reflexivity.
Defined.

(** ** Construction parameters *)

Lemma obj_get_set_same (k v : string) (o : list (string * string)) :
  obj_get k (obj_set k v o) = Some v.
Proof.
  induction o as [|[k' v'] o IH]; cbn.
  - rewrite String.eqb_refl. reflexivity.
  - destruct (String.eqb k' k) eqn:E; cbn; rewrite E; [reflexivity | exact IH].
Qed.

Lemma obj_get_set_other (k k0 v : string) (o : list (string * string)) :
  k <> k0 -> obj_get k (obj_set k0 v o) = obj_get k o.
Proof.
  intros Hne. induction o as [|[k' v'] o IH]; cbn.
  - destruct (String.eqb_spec k0 k); [congruence | reflexivity].
  - destruct (String.eqb_spec k' k0) as [->|Hk]; cbn.
    + destruct (String.eqb_spec k0 k); [congruence | reflexivity].
    + destruct (String.eqb_spec k' k); [reflexivity | exact IH].
Qed.

Lemma obj_keys_set (k v : string) (o : list (string * string)) :
  obj_keys (obj_set k v o)
  = if existsb (String.eqb k) (obj_keys o) then obj_keys o else obj_keys o ++ [k].
Proof.
  unfold obj_keys. induction o as [|[k' v'] o IH]; cbn; [reflexivity|].
  rewrite (String.eqb_sym k k').
  destruct (String.eqb_spec k' k) as [->|Hk]; cbn; [reflexivity|].
  rewrite IH. destruct (existsb _ _); reflexivity.
Qed.

Lemma obj_set_NoDup (k v : string) (o : list (string * string)) :
  NoDup (obj_keys o) -> NoDup (obj_keys (obj_set k v o)).
Proof.
  intros Hnd. rewrite obj_keys_set.
  destruct (existsb (String.eqb k) (obj_keys o)) eqn:E; [exact Hnd|].
  apply NoDup_app; [exact Hnd | repeat constructor; intros [] |].
  intros x Hin [Hx|[]]. subst x.
  assert (existsb (String.eqb k) (obj_keys o) = true); [|congruence].
  apply existsb_exists. exists k. split; [exact Hin | apply String.eqb_refl].
Qed.

(** With distinct keys, rendering each key with the value looked up
    under it is rendering the entries one by one. *)
Lemma queryString_entries (o : list (string * string)) :
  NoDup (obj_keys o) ->
  queryString o
  = String.concat "&" (map (fun kv => (fst kv ++ "=" ++ snd kv)%string) o).
Proof.
  intros Hnd. unfold queryString, obj_keys in *. f_equal. rewrite map_map.
  induction o as [|[k v] o IH]; [reflexivity|].
  inversion Hnd as [|? ? Hnotin Hnd']; subst.
  cbn [map fst snd obj_get]. rewrite String.eqb_refl. f_equal.
  rewrite <- (IH Hnd'). apply map_ext_in. intros [k' v'] Hin.
  cbn [fst obj_get].
  destruct (String.eqb_spec k k') as [->|Hk]; [|reflexivity].
  exfalso. apply Hnotin. apply in_map_iff. exists (k', v'). split; [reflexivity | exact Hin].
Qed.

(** X5.  [getSocketRequestParams] fails its assertion exactly when the
    log identifier is missing or empty, or neither the requested
    duration nor the configured default is a non-zero number; when it
    succeeds the duration is the requested one if that is non-zero and
    the default otherwise, the profile and retry count fall back to
    ["default"] and [3], and no chunk size is set. *)
Theorem X5_request_params_assertion (options : Options) :
  (getSocketRequestParams options = None <->
   opt_logGuid options = None \/ opt_logGuid options = Some "" \/
   truthy (js_or (opt_duration options)
                 (defaultLogLength (opt_serverConfig options))) = false) /\
  (forall p, getSocketRequestParams options = Some p ->
     opt_logGuid options = Some (logGuid p) /\ logGuid p <> "" /\
     duration p <> 0 /\
     Num (duration p) = (if truthy (opt_duration options) then opt_duration options
                         else defaultLogLength (opt_serverConfig options)) /\
     logProfile p = match opt_logProfile options with
                    | Some x => x
                    | None => "default"
                    end /\
     retryAttempts p = match cfg_retryAttempts (opt_serverConfig options) with
                       | Some n => n
                       | None => 3
                       end /\
     timestamp p = opt_timestamp options /\
     bufferLength p = opt_bufferLength options /\
     chunkSize p = Undef).
Proof.
  unfold getSocketRequestParams, js_or.
  destruct (opt_logGuid options) as [g|].
  2:{ split; [split; auto | discriminate]. }
  set (d := if truthy (opt_duration options) then opt_duration options
            else defaultLogLength (opt_serverConfig options)).
  destruct d as [|dz] eqn:Ed.
  { split; [split; auto | discriminate]. }
  destruct (String.eqb_spec g "") as [->|Hg]; cbn [negb andb].
  { split; [split; auto | discriminate]. }
  destruct (truthy (Num dz)) eqn:Et.
  - split.
    + split; [discriminate|]. intros [Hc|[Hc|Hc]]; try discriminate.
      injection Hc as Hc. contradiction.
    + intros p Hp. injection Hp as <-. cbn.
      repeat split; try assumption; try reflexivity.
      cbn in Et. apply negb_true_iff, Z.eqb_neq in Et. exact Et.
  - split; [split; auto | discriminate].
Qed.

(** X6.  The query object always carries the loader's own [log] and
    [profile]: entries of [serverConfig.queryParams] under these keys
    are overwritten, every other entry is kept, distinct keys stay
    distinct, and the URL is the server URL, ["?"] and the entries
    rendered in key order. *)
Theorem X6_query_object (options : Options) (p : RequestParams) :
  getSocketRequestParams options = Some p ->
  NoDup (obj_keys (queryParams (opt_serverConfig options))) ->
  let q := queryObject (opt_serverConfig options) (logGuid p) (logProfile p) in
  obj_get "log" q = Some (logGuid p) /\
  obj_get "profile" q = Some (logProfile p) /\
  (forall k, k <> "log" -> k <> "profile" ->
             obj_get k q = obj_get k (queryParams (opt_serverConfig options))) /\
  NoDup (obj_keys q) /\
  url p = (serverUrl (opt_serverConfig options) ++ "?" ++ queryString q)%string.
Proof.
  intros Hp Hnd q. subst q. unfold queryObject.
  split; [|split; [|split; [|split]]].
  - rewrite obj_get_set_other by discriminate. apply obj_get_set_same.
  - apply obj_get_set_same.
  - intros k H1 H2. rewrite !obj_get_set_other by assumption. reflexivity.
  - apply obj_set_NoDup, obj_set_NoDup, Hnd.
  - rewrite queryString_entries by (apply obj_set_NoDup, obj_set_NoDup, Hnd).
    unfold getSocketRequestParams in Hp.
    destruct (opt_logGuid options) as [g|]; [|discriminate].
    destruct (js_or _ _) as [|dz]; [discriminate|].
    destruct (negb (String.eqb g "") && truthy (Num dz)); [|discriminate].
    injection Hp as <-. reflexivity.
Qed.

(** A configuration that tries to set [log] itself. *)
Lemma X6_query_object_witness :
  url (Scenario.params_of
         (mkOptions (Some "mock") None (Num 30) Undef Undef
            (mkServerConfig "ws://host" Undef [("log", "other"); ("v", "2")] None)))
  = "ws://host?log=mock&v=2&profile=default".
Proof.
  destruct (X6_query_object
              (mkOptions (Some "mock") None (Num 30) Undef Undef
                 (mkServerConfig "ws://host" Undef [("log", "other"); ("v", "2")] None))
              (Scenario.params_of
                 (mkOptions (Some "mock") None (Num 30) Undef Undef
                    (mkServerConfig "ws://host" Undef [("log", "other"); ("v", "2")] None))))
    as (_ & _ & _ & _ & W).
  - reflexivity.
  - cbn. repeat constructor; cbn; intuition discriminate.
  - rewrite W. reflexivity.
Defined.

(** ** Seek, once more *)

Section SeekMore.

Context {B Str : Type} `{XvizStreamBuffer B Str}.
Variable TIME_WINDOW : Z.
Variable clampTime : option Message -> Z -> Z.

(** [seek] in terms of [seek_issues] and [seek_plan]. *)
Lemma seek_by_cases (t : Z) (s : Loader B Str) :
  seek TIME_WINDOW clampTime t s =
  if seek_issues TIME_WINDOW clampTime t s
  then
    let s2 := with_lastRequest
                (Some (with_timestamp (seek_plan TIME_WINDOW clampTime t s)
                         (Num (clampTime (st_metadata s) t - TIME_WINDOW))))
                (after_prune clampTime t s) in
    if isOpen s2 then handler_play (seek_plan TIME_WINDOW clampTime t s) s2
    else connect (close s2)
  else (after_prune clampTime t s, Normal).
Proof.
  rewrite seek_unfold. unfold seek_issues, seek_plan, covered. cbv zeta.
  destruct (lastRequest s) as [last|]; [|reflexivity].
  destruct (_ && _); cbn [negb andb]; [reflexivity|].
  destruct (duration _ =? 0); reflexivity.
Qed.

(** [seek] never touches the socket, the controller, the construction
    parameters, the metadata or the synchronizer. *)
Lemma seek_frame (t : Z) (s : Loader B Str) :
  let s' := fst (seek TIME_WINDOW clampTime t s) in
  socket s' = socket s /\ xvizHandler s' = xvizHandler s /\
  requestParams s' = requestParams s /\ retrySettings s' = retrySettings s /\
  st_metadata s' = st_metadata s /\ st_logSynchronizer s' = st_logSynchronizer s.
Proof.
  rewrite seek_by_cases. cbv zeta.
  destruct (after_prune_frame clampTime t s) as (Hso & Hrp & _ & Hxh & Hmd & Hsy & _).
  cbv zeta in *.
  assert (Hrs : retrySettings (after_prune clampTime t s) = retrySettings s).
  { unfold after_prune. destruct (prune_changes _ _); reflexivity. }
  destruct (seek_issues _ _ _ _); [|cbn [fst]; repeat split; assumption].
  unfold isOpen, handler_play, connect, close. cbn.
  destruct (socket (after_prune clampTime t s)) eqn:Es; cbn.
  - destruct (xvizHandler (after_prune clampTime t s)) eqn:Ex; cbn;
      repeat split; congruence.
  - rewrite Es. cbn. repeat split; congruence.
Qed.

End SeekMore.

(** X7.  While every recorded socket has its controller, [seek] never
    throws: neither the controller call nor the assertion of [connect]
    can fail in it.  A new loader is in that state, and [seek] itself
    leaves socket and controller as they are. *)
Theorem X7_seek_never_throws {B Str : Type} `{XvizStreamBuffer B Str}
    (TIME_WINDOW : Z) (clampTime : option Message -> Z -> Z)
    (t : Z) (s : Loader B Str) :
  handler_ready s ->
  snd (seek TIME_WINDOW clampTime t s) = Normal /\
  handler_ready (fst (seek TIME_WINDOW clampTime t s)) /\
  socket (fst (seek TIME_WINDOW clampTime t s)) = socket s.
Proof.
  intros Hr.
  destruct (seek_frame TIME_WINDOW clampTime t s) as (Hso & Hxh & _). cbv zeta in *.
  split; [|split; [|exact Hso]].
  - rewrite seek_by_cases. cbv zeta.
    destruct (seek_issues _ _ _ _); [|reflexivity].
    destruct (after_prune_frame clampTime t s) as (Hso1 & _ & _ & Hxh1 & _). cbv zeta in *.
    unfold isOpen, handler_play, connect, close. cbn.
    destruct (socket (after_prune clampTime t s)) eqn:Es; cbn.
    + destruct (xvizHandler (after_prune clampTime t s)) eqn:Ex; [reflexivity|].
      exfalso. apply Hr; congruence.
    + rewrite Es. reflexivity.
  - unfold handler_ready in *. rewrite Hso, Hxh. exact Hr.
Qed.

Lemma X7_seek_never_throws_witness :
  snd (seek 2 Scenario.clampTime 101 Scenario.playing) = Normal.
Proof.
  destruct (X7_seek_never_throws 2 Scenario.clampTime 101 Scenario.playing) as (W & _).
  - intros _. discriminate.
  - exact W.
Defined.

(** X8.  What a seek that needs data does.  It records the planner's
    window under the buffer start time [t - TIME_WINDOW] (not under the
    planner's clamped timestamp).  On an open loader it sends exactly
    one play directive, carrying the planner's window itself; on a
    closed loader it sends nothing and starts a retry session.  A seek
    that needs no data ends after its pruning step. *)
Theorem X8_seek_request {B Str : Type} `{XvizStreamBuffer B Str}
    (TIME_WINDOW : Z) (clampTime : option Message -> Z -> Z)
    (t : Z) (s : Loader B Str) :
  handler_ready s ->
  let c := clampTime (st_metadata s) t in
  let plan := seek_plan TIME_WINDOW clampTime t s in
  let s1 := after_prune clampTime t s in
  let s' := fst (seek TIME_WINDOW clampTime t s) in
  if seek_issues TIME_WINDOW clampTime t s
  then
    lastRequest s' = Some (with_timestamp plan (Num (c - TIME_WINDOW))) /\
    duration plan <> 0 /\
    match socket s, xvizHandler s with
    | Some _, Some h => log s' = log s1 ++ [HandlerPlay h plan]
    | _, _ =>
        log s' = log s1 ++ [Debug "stream_start";
                            RetrySession (retries (retrySettings s))] /\
        socket s' = None
    end
  else seek TIME_WINDOW clampTime t s = (s1, Normal).
Proof.
  intros Hr c plan s1 s'. subst s'. rewrite seek_by_cases. cbv zeta.
  fold c plan s1.
  destruct (seek_issues TIME_WINDOW clampTime t s) eqn:Ei; [|reflexivity].
  assert (Hd : duration plan <> 0).
  { unfold seek_issues in Ei. destruct (lastRequest s); [|discriminate].
    apply andb_true_iff in Ei. destruct Ei as [_ Ei].
    apply negb_true_iff, Z.eqb_neq in Ei. exact Ei. }
  destruct (after_prune_frame clampTime t s) as (Hso1 & _ & _ & Hxh1 & _). cbv zeta in *.
  fold s1 in Hso1, Hxh1.
  assert (Hrs : retrySettings s1 = retrySettings s).
  { subst s1. unfold after_prune. destruct (prune_changes _ _); reflexivity. }
  unfold isOpen, handler_play, connect, close. cbn.
  rewrite Hso1, Hxh1.
  destruct (socket s) eqn:Es; cbn.
  - destruct (xvizHandler s) eqn:Ex; cbn.
    + repeat split; assumption.
    + exfalso. apply Hr; congruence.
  - rewrite Hso1. cbn. rewrite Hrs, <- app_assoc. cbn.
    destruct (xvizHandler s); repeat split; assumption.
Qed.

(** [ready] sought to [100]: the play directive starts at [98], and so
    does the recorded request. *)
Lemma X8_seek_request_witness :
  lastRequest (fst (seek 2 Scenario.clampTime 100 Scenario.ready))
  = Some (with_timestamp (seek_plan 2 Scenario.clampTime 100 Scenario.ready) (Num 98)).
Proof.
  pose proof (X8_seek_request 2 Scenario.clampTime 100 Scenario.ready) as W.
  cbv zeta in W.
  assert (Hi : seek_issues 2 Scenario.clampTime 100 Scenario.ready = true)
    by (vm_compute; reflexivity).
  rewrite Hi in W. destruct W as (W & _).
  - intros _. discriminate.
  - exact W.
Defined.

(** X9.  Seeking twice to the same timestamp asks for data at most
    once: the first seek, if it needs data, records its request under
    [t - TIME_WINDOW], which is the very buffer start the second seek
    compares with it; so if [t] does not exceed
    [(t - TIME_WINDOW) + chunkSize], the sum the guard computes from
    that record, the second seek finds the timestamp covered, sends
    nothing and keeps the recorded request. *)
Theorem X9_seek_again_is_covered {B Str : Type} `{XvizStreamBuffer B Str}
    (TIME_WINDOW : Z) (clampTime : option Message -> Z -> Z)
    (t : Z) (s : Loader B Str) :
  handler_ready s ->
  seek_issues TIME_WINDOW clampTime t s = true ->
  let c := clampTime (st_metadata s) t in
  c <= (c - TIME_WINDOW) + chunkSizeOf TIME_WINDOW (requestParams s) ->
  let s1 := fst (seek TIME_WINDOW clampTime t s) in
  let s2 := fst (seek TIME_WINDOW clampTime t s1) in
  (exists last,
      lastRequest s1 = Some last /\
      timestamp last = Num (c - TIME_WINDOW) /\
      chunkSize last = Num (chunkSizeOf TIME_WINDOW (requestParams s)) /\
      covered TIME_WINDOW c last = true) /\
  seek_issues TIME_WINDOW clampTime t s1 = false /\
  lastRequest s2 = lastRequest s1 /\
  requests (log s2) = requests (log s1).
Proof.
  intros Hr Hi c Hchunk s1 s2.
  pose proof (Hcases := seek_by_cases TIME_WINDOW clampTime t s).
  destruct (seek_frame TIME_WINDOW clampTime t s) as (_ & _ & _ & _ & Hmd & _).
  cbv zeta in Hmd. fold s1 in Hmd.
  assert (Hlr : lastRequest s1
                = Some (with_timestamp (seek_plan TIME_WINDOW clampTime t s)
                          (Num (c - TIME_WINDOW)))).
  { subst s1. rewrite Hcases, Hi. cbv zeta.
    unfold isOpen, handler_play, connect, close. cbn.
    destruct (socket (after_prune clampTime t s)) eqn:Es; cbn.
    - destruct (xvizHandler (after_prune clampTime t s)); reflexivity.
    - rewrite Es. reflexivity. }
  assert (Hcov : covered TIME_WINDOW c
                   (with_timestamp (seek_plan TIME_WINDOW clampTime t s)
                      (Num (c - TIME_WINDOW))) = true).
  { unfold covered. cbn [timestamp with_timestamp].
    change (chunkSize (with_timestamp ?p ?x)) with (chunkSize p).
    unfold seek_plan. rewrite planner_chunkSize. cbn [js_geb js_leb js_add].
    rewrite Z.geb_leb, Z.leb_refl. cbn [andb]. apply Z.leb_le. exact Hchunk. }
  assert (Hno : seek_issues TIME_WINDOW clampTime t s1 = false).
  { unfold seek_issues. rewrite Hlr, Hmd. fold c. rewrite Hcov. reflexivity. }
  split.
  { eexists. split; [exact Hlr|]. split; [reflexivity|]. split; [|exact Hcov].
    change (chunkSize (with_timestamp ?p ?x)) with (chunkSize p).
    unfold seek_plan. apply planner_chunkSize. }
  split; [exact Hno|].
  subst s2. rewrite (seek_by_cases TIME_WINDOW clampTime t s1), Hno. cbn [fst].
  destruct (after_prune_frame clampTime t s1) as (_ & _ & Hl & _ & _ & _ & Hq).
  split; assumption.
Qed.

Lemma X9_seek_again_is_covered_witness :
  requests (log (fst (seek 2 Scenario.clampTime 100
                        (fst (seek 2 Scenario.clampTime 100 Scenario.ready)))))
  = requests (log (fst (seek 2 Scenario.clampTime 100 Scenario.ready))).
Proof.
  destruct (X9_seek_again_is_covered 2 Scenario.clampTime 100 Scenario.ready)
    as (_ & _ & _ & W).
  - intros _. discriminate.
  - vm_compute. reflexivity.
  - vm_compute. discriminate.
  - exact W.
Defined.

(** ** Message dispatch, once more *)

Section DispatchMore.

Context {B Str : Type} `{XvizStreamBuffer B Str}.
Variable TIME_WINDOW : Z.

(** What one message may change, by kind. *)
Lemma onmessage_cases (m : Message) (s : Loader B Str) :
  let r := _onWSMessage TIME_WINDOW m s in
  match type m with
  | METADATA =>
      match st_metadata s with
      | Some _ => r = (s, Normal)
      | None => streamBuffer (fst r) = streamBuffer s /\
                st_logSynchronizer (fst r) = Some (mkSync (start_time m) None) /\
                count is_update (log (fst r)) = count is_update (log s)
      end
  | TIMESLICE =>
      streamBuffer (fst r) = insert m (streamBuffer s) /\
      st_metadata (fst r) = st_metadata s /\
      lastRequest (fst r) = lastRequest s /\ socket (fst r) = socket s /\
      requests (log (fst r)) = requests (log s) /\
      match st_logSynchronizer s with
      | Some sync =>
          snd r = Normal /\ st_logSynchronizer (fst r) <> None /\
          count is_update (log (fst r)) = S (count is_update (log s))
      | None =>
          st_logSynchronizer (fst r) = None /\
          if insert_changes m (streamBuffer s)
          then snd r = Thrown TypeError /\
               count is_update (log (fst r)) = count is_update (log s)
          else snd r = Normal /\
               count is_update (log (fst r)) = S (count is_update (log s))
      end
  | DONE => r = (emit (Finish m) s, Normal)
  | OTHER => r = (emit (Error (ErrMessage m)) s, Normal)
  end.
Proof.
  destruct (type m) eqn:Ety; cbv zeta.
  - unfold _onWSMessage. rewrite Ety. destruct (st_metadata s) eqn:Emd; [reflexivity|].
    unfold handler_play. cbn -[count updateSocketRequestParams].
    destruct (xvizHandler s); cbn -[count updateSocketRequestParams];
      repeat split; rewrite ?count_app; cbn; rewrite ?Nat.add_0_r; reflexivity.
  - destruct (insert_changes m (streamBuffer s)) eqn:Ech.
    + rewrite (timeslice_changed TIME_WINDOW m s Ety Ech). cbv zeta.
      destruct (st_logSynchronizer s) eqn:Es; cbn -[count requests];
        rewrite ?Es; repeat split; try discriminate;
        rewrite ?requests_app, ?count_app; cbn; rewrite ?app_nil_r, ?Nat.add_0_r;
        try reflexivity; apply Nat.add_1_r.
    + rewrite (timeslice_unchanged TIME_WINDOW m s Ety Ech).
      destruct (st_logSynchronizer s) eqn:Es; cbn -[count requests];
        rewrite ?Es; repeat split; try discriminate;
        rewrite ?requests_app, ?count_app; cbn; rewrite ?app_nil_r, ?Nat.add_0_r;
        try reflexivity; apply Nat.add_1_r.
  - unfold _onWSMessage. rewrite Ety. reflexivity.
  - unfold _onWSMessage. rewrite Ety. reflexivity.
Qed.

End DispatchMore.

Section DispatchSequences.

Context {B Str : Type} `{XvizStreamBuffer B Str}.
Variable TIME_WINDOW : Z.

(** With metadata held, one message sends nothing and moves neither
    the recorded request nor the socket. *)
Lemma onmessage_quiet (m md : Message) (s : Loader B Str) :
  st_metadata s = Some md ->
  let s' := fst (_onWSMessage TIME_WINDOW m s) in
  st_metadata s' = Some md /\ lastRequest s' = lastRequest s /\
  socket s' = socket s /\ requests (log s') = requests (log s).
Proof.
  intros Hmd. pose proof (onmessage_cases TIME_WINDOW m s) as Hc. cbv zeta in *.
  destruct (type m).
  - rewrite Hmd in Hc. rewrite Hc. cbn. auto.
  - destruct Hc as (_ & Hm & Hl & Hs & Hq & _). repeat split; congruence.
  - rewrite Hc. cbn. rewrite requests_app. cbn. rewrite app_nil_r. auto.
  - rewrite Hc. cbn. rewrite requests_app. cbn. rewrite app_nil_r. auto.
Qed.

(** One message keeps a synchronizer that is there, feeds the buffer
    if it is a timeslice, and then emits one ['update']. *)
Lemma onmessage_step (m : Message) (s : Loader B Str) :
  st_logSynchronizer s <> None ->
  let s' := fst (_onWSMessage TIME_WINDOW m s) in
  st_logSynchronizer s' <> None /\
  count is_update (log s')
  = (count is_update (log s) + if is_timeslice m then 1 else 0)%nat.
Proof.
  intros Hs. pose proof (onmessage_cases TIME_WINDOW m s) as Hc. cbv zeta in *.
  unfold is_timeslice. destruct (type m).
  - destruct (st_metadata s).
    + rewrite Hc. cbn -[count]. split; [exact Hs | lia].
    + destruct Hc as (_ & Hsy & Hu). rewrite Hsy, Hu. split; [discriminate | lia].
  - destruct Hc as (_ & _ & _ & _ & _ & Hc).
    destruct (st_logSynchronizer s); [|contradiction].
    destruct Hc as (_ & Hsy & Hu). rewrite Hu. split; [exact Hsy | lia].
  - rewrite Hc. cbn -[count]. rewrite count_app. cbn. split; [exact Hs | lia].
  - rewrite Hc. cbn -[count]. rewrite count_app. cbn. split; [exact Hs | lia].
Qed.

Lemma onmessage_buffer (m : Message) (s : Loader B Str) :
  streamBuffer (fst (_onWSMessage TIME_WINDOW m s))
  = if is_timeslice m then insert m (streamBuffer s) else streamBuffer s.
Proof.
  pose proof (onmessage_cases TIME_WINDOW m s) as Hc. cbv zeta in *.
  unfold is_timeslice. destruct (type m).
  - destruct (st_metadata s); [rewrite Hc; reflexivity | apply Hc].
  - apply Hc.
  - rewrite Hc. reflexivity.
  - rewrite Hc. reflexivity.
Qed.

End DispatchSequences.

(** X10.  Once metadata is held, no sequence of inbound messages makes
    the loader send anything, close or open a socket, or change the
    recorded request. *)
Theorem X10_messages_send_nothing {B Str : Type} `{XvizStreamBuffer B Str}
    (TIME_WINDOW : Z) (ms : list Message) (s : Loader B Str) :
  st_metadata s <> None ->
  let s' := dispatch_all TIME_WINDOW ms s in
  requests (log s') = requests (log s) /\
  lastRequest s' = lastRequest s /\
  socket s' = socket s /\
  st_metadata s' = st_metadata s.
Proof.
  intros Hmd. destruct (st_metadata s) as [md|] eqn:Emd; [clear Hmd | contradiction].
  rewrite <- Emd. revert s Emd.
  induction ms as [|m ms IH]; intros s Emd; cbn [dispatch_all]; [auto|].
  destruct (onmessage_quiet TIME_WINDOW m md s Emd) as (Hm & Hl & Hs & Hq).
  cbv zeta in *.
  destruct (IH _ Hm) as (Hq' & Hl' & Hs' & Hm').
  cbv zeta in *. repeat split; congruence.
Qed.

Lemma X10_messages_send_nothing_witness :
  requests (log (dispatch_all 2 [Scenario.slice 105; Scenario.metadata;
                                  mkMessage DONE Undef Undef ""] Scenario.playing))
  = requests (log Scenario.playing).
Proof.
  destruct (X10_messages_send_nothing 2
              [Scenario.slice 105; Scenario.metadata; mkMessage DONE Undef Undef ""]
              Scenario.playing) as (W & _).
  - discriminate.
  - exact W.
Defined.

(** X11.  A timeslice that arrives while there is no synchronizer
    (before any metadata) is inserted all the same; if the insert
    changes the version token the streams are republished and the
    handler then throws a [TypeError] without emitting ['update']; if
    it does not, the handler emits ['update'] and returns. *)
Theorem X11_timeslice_without_synchronizer {B Str : Type} `{XvizStreamBuffer B Str}
    (TIME_WINDOW : Z) (m : Message) (s : Loader B Str) :
  type m = TIMESLICE ->
  st_logSynchronizer s = None ->
  let b' := insert m (streamBuffer s) in
  let r := _onWSMessage TIME_WINDOW m s in
  streamBuffer (fst r) = b' /\
  st_logSynchronizer (fst r) = None /\
  if insert_changes m (streamBuffer s)
  then snd r = Thrown TypeError /\
       st_streams (fst r) = Some (getStreams b') /\
       log (fst r) = log s ++ [SetKey "streams"]
  else snd r = Normal /\
       st_streams (fst r) = st_streams s /\
       log (fst r) = log s ++ [Emit (Update m)].
Proof.
  intros Hty Hs b' r. subst r.
  destruct (insert_changes m (streamBuffer s)) eqn:Ech.
  - rewrite (timeslice_changed TIME_WINDOW m s Hty Ech). cbv zeta. rewrite Hs.
    cbn. repeat split. exact Hs.
  - rewrite (timeslice_unchanged TIME_WINDOW m s Hty Ech). cbn.
    repeat split. exact Hs.
Qed.

(** A loader that is open but has not received metadata yet. *)
Lemma X11_timeslice_without_synchronizer_witness :
  snd (_onWSMessage 2 (Scenario.slice 100) (Scenario.after Scenario.options []))
  = Thrown TypeError.
Proof.
  pose proof (X11_timeslice_without_synchronizer 2 (Scenario.slice 100)
                (Scenario.after Scenario.options []) eq_refl eq_refl) as W.
  cbv zeta in W. destruct W as (_ & _ & W).
  assert (Hc : insert_changes (Scenario.slice 100)
                 (streamBuffer (Scenario.after Scenario.options [])) = true)
    by (vm_compute; reflexivity).
  rewrite Hc in W. exact (proj1 W).
Defined.

(** X12.  With a synchronizer in place, a sequence of inbound messages
    emits exactly one ['update'] per timeslice in it, whether or not
    the timeslice changed the buffer, and none for any other
    message. *)
Theorem X12_one_update_per_timeslice {B Str : Type} `{XvizStreamBuffer B Str}
    (TIME_WINDOW : Z) (ms : list Message) (s : Loader B Str) :
  st_logSynchronizer s <> None ->
  count is_update (log (dispatch_all TIME_WINDOW ms s))
  = (count is_update (log s) + List.length (filter is_timeslice ms))%nat.
Proof.
  revert s. induction ms as [|m ms IH]; intros s Hs; cbn [dispatch_all filter].
  - cbn. lia.
  - destruct (onmessage_step TIME_WINDOW m s Hs) as (Hs' & Hu). cbv zeta in *.
    rewrite (IH _ Hs'), Hu. destruct (is_timeslice m); cbn; lia.
Qed.

Lemma X12_one_update_per_timeslice_witness :
  count is_update
    (log (dispatch_all 2 [Scenario.slice 100; Scenario.metadata; Scenario.slice 105]
            Scenario.playing))
  = (count is_update (log Scenario.playing) + 2)%nat.
Proof.
  apply (X12_one_update_per_timeslice 2
           [Scenario.slice 100; Scenario.metadata; Scenario.slice 105]
           Scenario.playing).
  discriminate.
Defined.

(** X13.  The buffer is fed exactly the timeslices of a message
    sequence, in arrival order; metadata, done and unknown messages
    never touch it. *)
Theorem X13_buffer_receives_timeslices {B Str : Type} `{XvizStreamBuffer B Str}
    (TIME_WINDOW : Z) (ms : list Message) (s : Loader B Str) :
  streamBuffer (dispatch_all TIME_WINDOW ms s)
  = fold_left (fun b m => insert m b) (filter is_timeslice ms) (streamBuffer s).
Proof.
  revert s. induction ms as [|m ms IH]; intros s; cbn [dispatch_all filter];
    [reflexivity|].
  rewrite IH, onmessage_buffer. destruct (is_timeslice m); reflexivity.
Qed.

(** X14.  Under the buffer's version contract (an operation that keeps
    the version token keeps the streams) the published ['streams'] key
    never lags behind the buffer: if it agrees with the buffer before
    a [seek] or an inbound message it agrees after it, and after a
    [seek] or timeslice that moved the version token it agrees in any
    case. *)
Theorem X14_streams_follow_buffer {B Str : Type} `{XvizStreamBuffer B Str}
    (TIME_WINDOW : Z) (clampTime : option Message -> Z -> Z) (s : Loader B Str) :
  version_faithful (B := B) ->
  (streams_in_sync s ->
   (forall t, streams_in_sync (fst (seek TIME_WINDOW clampTime t s))) /\
   (forall m, streams_in_sync (fst (_onWSMessage TIME_WINDOW m s)))) /\
  (forall t, prune_changes (clampTime (st_metadata s) t) (streamBuffer s) = true ->
             streams_in_sync (fst (seek TIME_WINDOW clampTime t s))) /\
  (forall m, type m = TIMESLICE -> insert_changes m (streamBuffer s) = true ->
             streams_in_sync (fst (_onWSMessage TIME_WINDOW m s))).
Proof.
  intros [Hins Hprune].
  assert (Hseek : forall t,
             streams_in_sync s
             \/ prune_changes (clampTime (st_metadata s) t) (streamBuffer s) = true ->
             streams_in_sync (fst (seek TIME_WINDOW clampTime t s))).
  { intros t Hcase. unfold streams_in_sync in *.
    destruct (seek_buffer_streams TIME_WINDOW clampTime t s) as (Hb & Hs & _).
    destruct (after_prune_streams clampTime t s) as (Hs1 & _). cbv zeta in *.
    rewrite Hb, Hs, Hs1, after_prune_buffer.
    destruct (prune_changes _ _) eqn:Ech; [reflexivity|].
    destruct Hcase as [Hsync|Hc]; [|discriminate].
    rewrite Hsync. f_equal. symmetry. apply Hprune.
    unfold prune_changes in Ech. apply negb_false_iff, Z.eqb_eq in Ech. exact Ech. }
  assert (Hmsg : forall m,
             streams_in_sync s
             \/ (type m = TIMESLICE /\ insert_changes m (streamBuffer s) = true) ->
             streams_in_sync (fst (_onWSMessage TIME_WINDOW m s))).
  { intros m Hcase. unfold streams_in_sync in *.
    destruct (type m) eqn:Ety.
    - destruct Hcase as [Hsync|[Hc _]]; [|discriminate].
      unfold _onWSMessage. rewrite Ety. destruct (st_metadata s); [exact Hsync|].
      unfold handler_play. cbn -[updateSocketRequestParams].
      destruct (xvizHandler s); cbn -[updateSocketRequestParams]; exact Hsync.
    - destruct (insert_changes m (streamBuffer s)) eqn:Ech.
      + rewrite (timeslice_changed TIME_WINDOW m s Ety Ech). cbv zeta.
        destruct (st_logSynchronizer s); reflexivity.
      + rewrite (timeslice_unchanged TIME_WINDOW m s Ety Ech). cbn.
        destruct Hcase as [Hsync|[_ Hc]]; [|discriminate].
        rewrite Hsync. f_equal. symmetry. apply Hins.
        unfold insert_changes in Ech. apply negb_false_iff, Z.eqb_eq in Ech. exact Ech.
    - destruct Hcase as [Hsync|[Hc _]]; [|discriminate].
      unfold _onWSMessage. rewrite Ety. exact Hsync.
    - destruct Hcase as [Hsync|[Hc _]]; [|discriminate].
      unfold _onWSMessage. rewrite Ety. exact Hsync. }
  split; [|split].
  - intros Hsync. split; [intros t; apply Hseek | intros m; apply Hmsg]; auto.
  - intros t Hc. apply Hseek. auto.
  - intros m Hty Hc. apply Hmsg. auto.
Qed.

Lemma filter_keeps_all {A : Type} (f : A -> bool) (l : list A) :
  List.length (filter f l) = List.length l -> filter f l = l.
Proof.
  induction l as [|a l IH]; [reflexivity|]. cbn.
  destruct (f a); cbn; intros Hlen.
  - f_equal. apply IH. lia.
  - pose proof (filter_length_le f l). lia.
Qed.

(** The stand-in buffer keeps the version contract. *)
Lemma SimBuffer_version_faithful : version_faithful (B := SimBuffer.t).
Proof.
  split.
  - intros m b. cbn. unfold SimBuffer.insert.
    destruct (slice_time m); [reflexivity|].
    destruct (SimBuffer.in_window _ _ _); [cbn; lia | reflexivity].
  - intros t b. cbn. unfold SimBuffer.setCurrentTime. cbn.
    destruct (Nat.eqb_spec
                (List.length (filter (SimBuffer.in_window (SimBuffer.offsets b) (Some t))
                                (SimBuffer.slices b)))
                (List.length (SimBuffer.slices b))) as [Hlen|Hlen].
    + intros _. apply filter_keeps_all. exact Hlen.
    + lia.
Defined.

Lemma X14_streams_follow_buffer_witness :
  streams_in_sync (fst (seek 2 Scenario.clampTime 105 Scenario.playing)).
Proof.
  destruct (X14_streams_follow_buffer 2 Scenario.clampTime Scenario.playing
              SimBuffer_version_faithful) as (W & _).
  destruct W as (W & _); [reflexivity|]. apply W.
Defined.

(** ** Connection attempts, once more *)

Section ConnectMore.

Context {B Str : Type} `{XvizStreamBuffer B Str}.
Variable TIME_WINDOW : Z.

Lemma count_cons (f : Effect -> bool) (e : Effect) (l : list Effect) :
  count f (e :: l) = ((if f e then 1 else 0) + count f l)%nat.
Proof. unfold count. cbn. destruct (f e); reflexivity. Qed.

Lemma count_nil (f : Effect -> bool) : count f [] = 0%nat.
Proof. reflexivity. Qed.

Ltac count_quiet Hq :=
  cbn -[count updateSocketRequestParams];
  rewrite ?count_app, ?count_cons, ?count_nil;
  repeat match goal with
         | |- context [if ?f ?e then _ else _] => rewrite (Hq e) by reflexivity
         end;
  lia.

(** The socket callbacks produce none of the effects singled out by
    [not_from_callbacks]. *)
Lemma callbacks_count (f : Effect -> bool) :
  (forall e, f e = true -> not_from_callbacks e = true) ->
  forall s : Loader B Str,
    (forall h, count f (log (_onWSOpen (with_socket (Some h) s))) = count f (log s)) /\
    (forall m, count f (log (fst (_onWSMessage TIME_WINDOW m s))) = count f (log s)) /\
    count f (log (_onWSError (ErrException Undef) s)) = count f (log s) /\
    count f (log (_onWSError ErrErrorEvent s)) = count f (log s) /\
    (forall c, count f (log (_onWSClose c s)) = count f (log s)).
Proof.
  intros Hf s.
  assert (Hq : forall e, not_from_callbacks e = false -> f e = false).
  { intros e He. destruct (f e) eqn:E; [|reflexivity].
    apply Hf in E. congruence. }
  repeat split.
  - intros h. unfold _onWSOpen. cbn -[count].
    destruct (lastRequest s); count_quiet Hq.
  - intros m. unfold _onWSMessage, handler_play.
    destruct (type m).
    + destruct (st_metadata s); [reflexivity|].
      cbn -[count updateSocketRequestParams].
      destruct (xvizHandler s); count_quiet Hq.
    + cbn -[count].
      destruct (valueOf (insert m (streamBuffer s)) =? valueOf (streamBuffer s));
        [count_quiet Hq|].
      cbn -[count]. destruct (st_logSynchronizer s); count_quiet Hq.
    + count_quiet Hq.
    + count_quiet Hq.
  - count_quiet Hq.
  - count_quiet Hq.
  - intros c. count_quiet Hq.
Qed.

Lemma onmessage_socket (m : Message) (s : Loader B Str) :
  socket (fst (_onWSMessage TIME_WINDOW m s)) = socket s.
Proof.
  unfold _onWSMessage, handler_play. destruct (type m); try reflexivity.
  - destruct (st_metadata s); [reflexivity|].
    cbn -[updateSocketRequestParams]. destruct (xvizHandler s); reflexivity.
  - cbn. destruct (_ =? _); [reflexivity|]. cbn.
    destruct (st_logSynchronizer s); reflexivity.
Qed.

(** Events on a socket whose attempt is settled: the settlement stays,
    and nothing outside the callbacks' repertoire is logged. *)
Lemma ws_deliver_settled (f : Effect -> bool) (h : nat) :
  (forall e, f e = true -> not_from_callbacks e = true) ->
  forall (evs : list WsEvent) (p : Settlement) (s : Loader B Str),
    p <> Pending ->
    snd (ws_deliver TIME_WINDOW h evs p s) = p /\
    count f (log (fst (ws_deliver TIME_WINDOW h evs p s))) = count f (log s).
Proof.
  intros Hf. induction evs as [|ev evs IH]; intros p s Hp; cbn [ws_deliver].
  - split; reflexivity.
  - destruct (callbacks_count f Hf s) as (Ho & Hm & He1 & He2 & Hc).
    destruct ev as [|[m|]| |c].
    + destruct (IH (match p with Pending => Resolved | _ => p end)
                  (_onWSOpen (with_socket (Some h) s))) as (Hp' & Hn).
      { destruct p; congruence. }
      rewrite Hp', Hn, Ho. destruct p; [contradiction| | |]; split; reflexivity.
    + destruct (IH p (fst (_onWSMessage TIME_WINDOW m s)) Hp) as (Hp' & Hn).
      rewrite Hp', Hn, Hm. split; reflexivity.
    + destruct (IH p (_onWSError (ErrException Undef) s) Hp) as (Hp' & Hn).
      rewrite Hp', Hn, He1. split; reflexivity.
    + destruct (IH p (_onWSError ErrErrorEvent s) Hp) as (Hp' & Hn).
      rewrite Hp', Hn, He2. split; reflexivity.
    + destruct p; [contradiction| | |]; cbn [fst snd]; rewrite Hc; split; reflexivity.
Qed.

(** Events on a socket, settled or not: nothing that only the session
    itself produces is logged, and a recorded socket stays recorded. *)
Lemma ws_deliver_any (f : Effect -> bool) (h : nat) :
  (forall e, f e = true -> session_only e = true) ->
  forall (evs : list WsEvent) (p : Settlement) (s : Loader B Str),
    count f (log (fst (ws_deliver TIME_WINDOW h evs p s))) = count f (log s) /\
    (socket s <> None -> socket (fst (ws_deliver TIME_WINDOW h evs p s)) <> None).
Proof.
  intros Hf.
  assert (Hf' : forall e, f e = true -> not_from_callbacks e = true).
  { intros e He. unfold not_from_callbacks. rewrite (Hf e He). reflexivity. }
  assert (Hq : forall e, session_only e = false -> f e = false).
  { intros e He. destruct (f e) eqn:E; [|reflexivity]. apply Hf in E. congruence. }
  induction evs as [|ev evs IH]; intros p s; cbn [ws_deliver].
  - split; [reflexivity | auto].
  - destruct (callbacks_count f Hf' s) as (Ho & Hm & He1 & He2 & Hc).
    destruct ev as [|[m|]| |c].
    + destruct (IH (match p with Pending => Resolved | _ => p end)
                  (_onWSOpen (with_socket (Some h) s))) as (Hn & Hs).
      rewrite Hn, Ho. split; [reflexivity|]. intros _. apply Hs.
      unfold _onWSOpen. cbn. destruct (lastRequest s); discriminate.
    + destruct (IH p (fst (_onWSMessage TIME_WINDOW m s))) as (Hn & Hs).
      rewrite Hn, Hm. split; [reflexivity|]. intros Hso. apply Hs.
      rewrite onmessage_socket. exact Hso.
    + destruct (IH p (_onWSError (ErrException Undef) s)) as (Hn & Hs).
      rewrite Hn, He1. split; [reflexivity | exact Hs].
    + destruct (IH p (_onWSError ErrErrorEvent s)) as (Hn & Hs).
      rewrite Hn, He2. split; [reflexivity | exact Hs].
    + destruct p; cbn [fst snd]; try (rewrite Hc; split; [reflexivity | auto]).
      unfold settle_rejected, on_rejected. cbn -[count].
      split; [|auto].
      rewrite ?count_app, ?count_cons, ?count_nil.
      rewrite (Hq (Debug "socket_closed")), (Hq (Emit (Error (ErrCloseEvent c))))
        by reflexivity. lia.
Qed.

End ConnectMore.

Section SessionMore.

Context {B Str : Type} `{XvizStreamBuffer B Str}.
Variable TIME_WINDOW : Z.

Lemma session_only_new_socket (e : Effect) :
  is_new_socket e = true -> session_only e = true.
Proof. destruct e; cbn; congruence. Qed.

Lemma session_only_terminal_error (e : Effect) :
  is_terminal_error e = true -> session_only e = true.
Proof. destruct e as [[| | |[]]| | | | | | | | |]; cbn; congruence. Qed.

Lemma callbacks_close_error (e : Effect) :
  is_close_error e = true -> not_from_callbacks e = true.
Proof. unfold not_from_callbacks. intros ->. apply orb_true_r. Qed.

(** One attempt builds at most one socket and never reports exhausted
    retries. *)
Lemma attempt_counts (h : nat) (behaviour : option (list WsEvent)) (s : Loader B Str) :
  let s' := fst (attempt TIME_WINDOW h behaviour s) in
  count is_new_socket (log s')
  = (count is_new_socket (log s) + match behaviour with Some _ => 1 | None => 0 end)%nat /\
  count is_terminal_error (log s') = count is_terminal_error (log s) /\
  (socket s <> None -> socket s' <> None).
Proof.
  unfold attempt. destruct behaviour as [evs|]; cbv zeta.
  - destruct (ws_deliver_any TIME_WINDOW is_new_socket h session_only_new_socket
                evs Pending (tell (NewWebSocket (url (requestParams s)) h) s))
      as (Hn & Hs).
    destruct (ws_deliver_any TIME_WINDOW is_terminal_error h session_only_terminal_error
                evs Pending (tell (NewWebSocket (url (requestParams s)) h) s))
      as (Ht & _).
    rewrite Hn, Ht, !count_tell. cbn. split; [reflexivity|]. split; [lia | exact Hs].
  - unfold settle_rejected, on_rejected. cbn -[count].
    rewrite !count_app. cbn. split; [lia|]. split; [lia | auto].
Qed.

(** A refused attempt leaves the loader as it was, the log apart. *)
Lemma attempt_refused_state (h : nat) (behaviour : option (list WsEvent))
    (s : Loader B Str) :
  closes_abnormally behaviour ->
  exists l,
    attempt TIME_WINDOW h behaviour s = (with_log (log s ++ l) s, RejectedRetry) /\
    count is_new_socket l = 1%nat /\ count is_close_error l = 1%nat /\
    count is_terminal_error l = 0%nat.
Proof.
  intros (errors & code & -> & Hab). unfold attempt.
  rewrite (ws_deliver_refused TIME_WINDOW h errors code Hab).
  exists ([NewWebSocket (url (requestParams s)) h]
          ++ repeat (Emit (Error ErrErrorEvent)) errors
          ++ [Debug "socket_closed"; Emit (Error (ErrCloseEvent code))]).
  assert (Hrep : forall f, f (Emit (Error ErrErrorEvent)) = false ->
                           count f (repeat (Emit (Error ErrErrorEvent)) errors) = 0%nat).
  { intros f Hf. induction errors as [|k IH]; [reflexivity|].
    unfold count in *. cbn. rewrite Hf. exact IH. }
  split; [|repeat split; rewrite !count_app, Hrep by reflexivity; reflexivity].
  f_equal. unfold tell. cbn. rewrite <- app_assoc. reflexivity.
Qed.

(** A session against a transport that refuses [j] sockets and then
    opens one, with at least [j] retries. *)
Lemma session_recovers (transport : nat -> option (list WsEvent)) :
  forall (j k h : nat) (s : Loader B Str),
    (j <= k)%nat ->
    recovers_after transport h j ->
    exists l,
      session TIME_WINDOW k transport h s
      = (_onWSOpen
           (with_socket (Some (h + j)%nat)
              (with_log (log s ++ l ++ [NewWebSocket (url (requestParams s)) (h + j)%nat])
                 s)),
         Connected) /\
      count is_new_socket l = j /\ count is_close_error l = j /\
      count is_terminal_error l = 0%nat.
Proof.
  induction j as [|j IH]; intros k h s Hle [Hfail Hopen].
  - exists []. rewrite Nat.add_0_r in *.
    split; [|repeat split].
    destruct k; cbn [session]; unfold attempt; rewrite Hopen; reflexivity.
  - destruct k as [|k]; [lia|].
    pose proof (Hfail 0%nat ltac:(lia)) as Hfirst. rewrite Nat.add_0_r in Hfirst.
    destruct (attempt_refused_state h (transport h) s Hfirst)
      as (l1 & Hatt & Hn1 & Hc1 & Ht1).
    destruct (IH k (S h) (with_log (log s ++ l1) s)) as (l2 & Hses & Hn2 & Hc2 & Ht2).
    { lia. }
    { split.
      - intros i Hi. replace (S h + i)%nat with (h + S i)%nat by lia.
        apply Hfail. lia.
      - replace (S h + j)%nat with (h + S j)%nat by lia. exact Hopen. }
    exists (l1 ++ l2). cbn [session]. rewrite Hatt, Hses.
    replace (S h + j)%nat with (h + S j)%nat by lia.
    split; [|repeat split; rewrite count_app; lia].
    cbn. rewrite <- !app_assoc. reflexivity.
Qed.

End SessionMore.

(** X15.  Whatever the transport does, a retry session with [k]
    retries builds at most [k + 1] sockets, and it emits the terminal
    ['error'] exactly when it ends with its retries exhausted. *)
Theorem X15_session_socket_bound {B Str : Type} `{XvizStreamBuffer B Str}
    (TIME_WINDOW : Z) (transport : nat -> option (list WsEvent))
    (k h : nat) (s : Loader B Str) :
  let r := session TIME_WINDOW k transport h s in
  (count is_new_socket (log (fst r)) <= count is_new_socket (log s) + S k)%nat /\
  count is_terminal_error (log (fst r))
  = (count is_terminal_error (log s)
     + match snd r with Exhausted => 1 | _ => 0 end)%nat.
Proof.
  revert h s. induction k as [|k IH]; intros h s; cbn [session].
  - destruct (attempt_counts TIME_WINDOW h (transport h) s) as (Hn & Ht & _).
    cbv zeta in *.
    destruct (attempt TIME_WINDOW h (transport h) s) as [s1 [ | | | ]];
      cbn [fst snd] in *; cbn -[count]; rewrite ?count_app; cbn;
      destruct (transport h); lia.
  - destruct (attempt_counts TIME_WINDOW h (transport h) s) as (Hn & Ht & _).
    cbv zeta in *.
    destruct (attempt TIME_WINDOW h (transport h) s) as [s1 [ | | | ]];
      cbn [fst snd] in *; try (destruct (transport h); lia).
    destruct (IH (S h) s1) as (Hn' & Ht'). cbv zeta in *.
    split; [destruct (transport h); lia | lia].
Qed.

(** X16.  Retry bound for any retry count: against a transport on
    which every attempt closes abnormally before opening, [connect]
    on a loader without socket builds [max(retries, 0) + 1] sockets,
    reports each failed attempt's close event as an ['error'], then
    emits one terminal ['error'] and ends with no socket recorded. *)
Theorem X16_retry_bound_any_count {B Str : Type} `{XvizStreamBuffer B Str}
    (TIME_WINDOW : Z) (transport : nat -> option (list WsEvent)) (h : nat)
    (s : Loader B Str) :
  socket s = None ->
  (forall n, closes_abnormally (transport n)) ->
  let attempts := S (Z.to_nat (retries (retrySettings s))) in
  let r := connect_run TIME_WINDOW transport h s in
  snd r = Some Exhausted /\
  socket (fst r) = None /\
  count is_new_socket (log (fst r)) = (count is_new_socket (log s) + attempts)%nat /\
  count is_close_error (log (fst r)) = (count is_close_error (log s) + attempts)%nat /\
  count is_terminal_error (log (fst r)) = S (count is_terminal_error (log s)).
Proof.
  intros Hsock Hall attempts r. subst r. unfold connect_run, connect. rewrite Hsock.
  set (s0 := tell (RetrySession (retries (retrySettings s)))
               (tell (Debug "stream_start") s)).
  change (retries (retrySettings s0)) with (retries (retrySettings s)).
  destruct (session_refused TIME_WINDOW transport Hall
              (Z.to_nat (retries (retrySettings s))) h s0)
    as (Hr & Hso & Hn & Hc & Ht & _).
  cbv zeta in *.
  destruct (session TIME_WINDOW (Z.to_nat (retries (retrySettings s))) transport h s0)
    as [s1 r1]. cbn [fst snd] in *.
  assert (Hlog0 : forall f, f (Debug "stream_start") = false ->
                            f (RetrySession (retries (retrySettings s))) = false ->
                            count f (log s0) = count f (log s)).
  { intros f H1 H2. subst s0. rewrite !count_tell, H1, H2. lia. }
  repeat split.
  - congruence.
  - rewrite Hso. exact Hsock.
  - rewrite Hn, Hlog0 by reflexivity. reflexivity.
  - rewrite Hc, Hlog0 by reflexivity. reflexivity.
  - rewrite Ht, Hlog0 by reflexivity. reflexivity.
Qed.

(** With [retryAttempts = 0] there is one attempt and no retry. *)
Lemma X16_retry_bound_any_count_witness :
  count is_new_socket
    (log (fst (connect_run 2 Scenario.refusing 0
                 (Scenario.fresh
                    (mkOptions (Some "mock") None (Num 30) Undef Undef
                       (mkServerConfig "ws://host" Undef [] (Some 0)))))))
  = 1%nat.
Proof.
  destruct (X16_retry_bound_any_count 2 Scenario.refusing 0
              (Scenario.fresh
                 (mkOptions (Some "mock") None (Num 30) Undef Undef
                    (mkServerConfig "ws://host" Undef [] (Some 0)))))
    as (_ & _ & W & _).
  - reflexivity.
  - exact Scenario_refusing_closes_abnormally.
  - rewrite W. reflexivity.
Defined.

(** X17.  Recovery: when the transport refuses [j] sockets and then
    opens one, and at least [j] retries are allowed, the session ends
    connected on socket [h + j] after [j + 1] sockets and [j] reported
    close events, without a terminal ['error']; the last things sent
    are the controller's open message and then the recorded request as
    a play directive, or the metadata request if none was recorded. *)
Theorem X17_session_recovers {B Str : Type} `{XvizStreamBuffer B Str}
    (TIME_WINDOW : Z) (transport : nat -> option (list WsEvent))
    (j k h : nat) (s : Loader B Str) :
  (j <= k)%nat ->
  recovers_after transport h j ->
  let r := session TIME_WINDOW k transport h s in
  snd r = Connected /\
  socket (fst r) = Some (h + j)%nat /\
  xvizHandler (fst r) = Some (h + j)%nat /\
  lastRequest (fst r) = lastRequest s /\
  count is_new_socket (log (fst r)) = (count is_new_socket (log s) + S j)%nat /\
  count is_close_error (log (fst r)) = (count is_close_error (log s) + j)%nat /\
  count is_terminal_error (log (fst r)) = count is_terminal_error (log s) /\
  exists l,
    log (fst r)
    = l ++ [HandlerOpen (h + j)%nat (requestParams s); Debug "socket_open";
            match lastRequest s with
            | Some last => HandlerPlay (h + j)%nat last
            | None => HandlerMetadata (h + j)%nat
            end].
Proof.
  intros Hle Hrec r. subst r.
  destruct (session_recovers TIME_WINDOW transport j k h s Hle Hrec)
    as (l & -> & Hn & Hc & Ht).
  unfold _onWSOpen. cbn -[count].
  destruct (lastRequest s) as [last|] eqn:Elr; cbn -[count]; rewrite ?Elr.
  - split; [reflexivity|]. split; [reflexivity|]. split; [reflexivity|].
    split; [reflexivity|].
    split; [rewrite !count_app, Hn; cbn; lia|].
    split; [rewrite !count_app, Hc; cbn; lia|].
    split; [rewrite !count_app, Ht; cbn; lia|].
    exists (log s ++ l ++ [NewWebSocket (url (requestParams s)) (h + j)%nat]).
    rewrite <- !app_assoc. reflexivity.
  - split; [reflexivity|]. split; [reflexivity|]. split; [reflexivity|].
    split; [reflexivity|].
    split; [rewrite !count_app, Hn; cbn; lia|].
    split; [rewrite !count_app, Hc; cbn; lia|].
    split; [rewrite !count_app, Ht; cbn; lia|].
    exists (log s ++ l ++ [NewWebSocket (url (requestParams s)) (h + j)%nat]).
    rewrite <- !app_assoc. reflexivity.
Qed.

(** A transport that refuses twice and then opens. *)
Lemma X17_session_recovers_witness :
  snd (session 2 3
         (fun n => match n with
                   | 0%nat | 1%nat => Some [OnClose (Num 1006)]
                   | _ => Some [OnOpen]
                   end) 0 (Scenario.fresh Scenario.options))
  = Connected.
Proof.
  destruct (X17_session_recovers 2
              (fun n => match n with
                        | 0%nat | 1%nat => Some [OnClose (Num 1006)]
                        | _ => Some [OnOpen]
                        end) 2 3 0 (Scenario.fresh Scenario.options))
    as (W & _).
  - lia.
  - split.
    + intros i Hi. exists 0%nat, (Num 1006).
      destruct i as [|[|i]]; [split; reflexivity | split; reflexivity | lia].
    + reflexivity.
  - exact W.
Defined.

Section Replay.

Context {B Str : Type} `{XvizStreamBuffer B Str}.
Variable TIME_WINDOW : Z.
Variable clampTime : option Message -> Z -> Z.

Lemma onmessage_lastRequest (m : Message) (s : Loader B Str) :
  lastRequest s <> None ->
  lastRequest (fst (_onWSMessage TIME_WINDOW m s)) <> None /\
  count is_metadata_request (log (fst (_onWSMessage TIME_WINDOW m s)))
  = count is_metadata_request (log s).
Proof.
  intros Hl. unfold _onWSMessage, handler_play. destruct (type m).
  - destruct (st_metadata s); [split; [exact Hl | reflexivity]|].
    cbn -[count updateSocketRequestParams].
    destruct (xvizHandler s); cbn -[count updateSocketRequestParams];
      (split; [discriminate|]); rewrite ?count_app; cbn; lia.
  - cbn -[count]. destruct (_ =? _); cbn -[count].
    + split; [exact Hl|]. rewrite count_app. cbn. lia.
    + destruct (st_logSynchronizer s); cbn -[count];
        (split; [exact Hl|]); rewrite ?count_app; cbn; lia.
  - cbn -[count]. split; [exact Hl|]. rewrite count_app. cbn. lia.
  - cbn -[count]. split; [exact Hl|]. rewrite count_app. cbn. lia.
Qed.

Lemma ws_deliver_lastRequest (h : nat) :
  forall (evs : list WsEvent) (p : Settlement) (s : Loader B Str),
    lastRequest s <> None ->
    lastRequest (fst (ws_deliver TIME_WINDOW h evs p s)) <> None /\
    count is_metadata_request (log (fst (ws_deliver TIME_WINDOW h evs p s)))
    = count is_metadata_request (log s).
Proof.
  induction evs as [|ev evs IH]; intros p s Hl; cbn [ws_deliver].
  - split; [exact Hl | reflexivity].
  - destruct ev as [|[m|]| |c].
    + destruct (lastRequest s) as [last|] eqn:El; [|contradiction].
      destruct (IH (match p with Pending => Resolved | _ => p end)
                  (_onWSOpen (with_socket (Some h) s))) as (Hl' & Hn).
      { unfold _onWSOpen. cbn. rewrite El. cbn. rewrite El. discriminate. }
      split; [exact Hl'|]. rewrite Hn. unfold _onWSOpen. cbn -[count].
      rewrite El. cbn -[count]. rewrite !count_app. cbn. lia.
    + destruct (onmessage_lastRequest m s Hl) as (Hl1 & Hn1).
      destruct (IH p _ Hl1) as (Hl' & Hn). split; [exact Hl' | congruence].
    + destruct (IH p (_onWSError (ErrException Undef) s) Hl) as (Hl' & Hn).
      split; [exact Hl'|]. rewrite Hn. cbn -[count]. rewrite count_app. cbn. lia.
    + destruct (IH p (_onWSError ErrErrorEvent s) Hl) as (Hl' & Hn).
      split; [exact Hl'|]. rewrite Hn. cbn -[count]. rewrite count_app. cbn. lia.
    + destruct p; cbn -[count]; try (split; [exact Hl|]; rewrite count_app; cbn; lia).
      unfold settle_rejected, on_rejected. cbn -[count].
      split; [exact Hl|]. rewrite !count_app. cbn. lia.
Qed.

Lemma session_lastRequest (transport : nat -> option (list WsEvent)) :
  forall (k h : nat) (s : Loader B Str),
    lastRequest s <> None ->
    lastRequest (fst (session TIME_WINDOW k transport h s)) <> None /\
    count is_metadata_request (log (fst (session TIME_WINDOW k transport h s)))
    = count is_metadata_request (log s).
Proof.
  assert (Hatt : forall h (s : Loader B Str),
             lastRequest s <> None ->
             lastRequest (fst (attempt TIME_WINDOW h (transport h) s)) <> None /\
             count is_metadata_request (log (fst (attempt TIME_WINDOW h (transport h) s)))
             = count is_metadata_request (log s)).
  { intros h s Hl. unfold attempt. destruct (transport h) as [evs|].
    - destruct (ws_deliver_lastRequest h evs Pending
                  (tell (NewWebSocket (url (requestParams s)) h) s) Hl) as (Hl' & Hn).
      split; [exact Hl'|]. rewrite Hn, count_tell. cbn. lia.
    - unfold settle_rejected, on_rejected. cbn -[count].
      split; [exact Hl|]. rewrite count_app. cbn. lia. }
  induction k as [|k IH]; intros h s Hl; cbn [session];
    destruct (Hatt h s Hl) as (Hl1 & Hn1);
    destruct (attempt TIME_WINDOW h (transport h) s) as [s1 [ | | | ]];
    cbn [fst snd] in *; try (split; assumption).
  - cbn -[count]. split; [exact Hl1|]. rewrite count_app. cbn. lia.
  - destruct (IH (S h) s1 Hl1) as (Hl' & Hn'). split; [exact Hl' | congruence].
Qed.

Lemma seek_lastRequest (t : Z) (s : Loader B Str) :
  lastRequest (fst (seek TIME_WINDOW clampTime t s))
  = if seek_issues TIME_WINDOW clampTime t s
    then Some (with_timestamp (seek_plan TIME_WINDOW clampTime t s)
                 (Num (clampTime (st_metadata s) t - TIME_WINDOW)))
    else lastRequest s.
Proof.
  rewrite seek_by_cases. cbv zeta.
  destruct (seek_issues TIME_WINDOW clampTime t s).
  - unfold isOpen, handler_play, connect, close. cbn.
    destruct (socket (after_prune clampTime t s)) eqn:Es; cbn.
    + destruct (xvizHandler (after_prune clampTime t s)); reflexivity.
    + rewrite Es. reflexivity.
  - cbn [fst]. apply (after_prune_frame clampTime t s).
Qed.

End Replay.

(** X18.  Once a socket has opened, nothing that happens on it is
    treated as a connection failure: whatever events follow, a close
    with an abnormal code included, the attempt stays resolved, the
    session ends connected without retry, no close event is reported
    as an ['error'], and the socket stays recorded, so that [isOpen]
    still answers yes. *)
Theorem X18_events_after_open {B Str : Type} `{XvizStreamBuffer B Str}
    (TIME_WINDOW : Z) (h : nat) (evs : list WsEvent) (s : Loader B Str) :
  let r := attempt TIME_WINDOW h (Some (OnOpen :: evs)) s in
  snd r = Resolved /\
  isOpen (fst r) = true /\
  count is_close_error (log (fst r)) = count is_close_error (log s) /\
  count is_terminal_error (log (fst r)) = count is_terminal_error (log s) /\
  (forall (k : nat) (transport : nat -> option (list WsEvent)),
      transport h = Some (OnOpen :: evs) ->
      session TIME_WINDOW k transport h s = (fst r, Connected)).
Proof.
  intros r. subst r. unfold attempt. cbn [ws_deliver].
  set (s0 := _onWSOpen (with_socket (Some h)
                          (tell (NewWebSocket (url (requestParams s)) h) s))).
  destruct (ws_deliver_settled TIME_WINDOW is_close_error h callbacks_close_error
              evs Resolved s0) as (Hp & Hc); [discriminate|].
  destruct (ws_deliver_any TIME_WINDOW is_terminal_error h session_only_terminal_error
              evs Resolved s0) as (Ht & Hs).
  assert (Hs0 : socket s0 <> None).
  { subst s0. unfold _onWSOpen. cbn. destruct (lastRequest s); discriminate. }
  assert (Hlog0 : forall f, f (NewWebSocket (url (requestParams s)) h) = false ->
                            (forall e, f e = true -> not_from_callbacks e = true) ->
                            count f (log s0) = count f (log s)).
  { intros f Hf Hsub. subst s0.
    destruct (callbacks_count TIME_WINDOW f Hsub
                (tell (NewWebSocket (url (requestParams s)) h) s)) as (Ho & _).
    rewrite Ho, count_tell, Hf. lia. }
  split; [exact Hp|]. split; [|split; [|split]].
  - unfold isOpen. specialize (Hs Hs0).
    destruct (socket (fst (ws_deliver TIME_WINDOW h evs Resolved s0)));
      [reflexivity | contradiction].
  - rewrite Hc. apply Hlog0; [reflexivity | exact callbacks_close_error].
  - rewrite Ht. apply Hlog0; [reflexivity|].
    intros e He. unfold not_from_callbacks.
    rewrite (session_only_terminal_error e He). reflexivity.
  - intros k transport Htr.
    assert (Hatt : attempt TIME_WINDOW h (transport h) s
                   = (fst (ws_deliver TIME_WINDOW h evs Resolved s0), Resolved)).
    { rewrite Htr. unfold attempt. cbn [ws_deliver]. fold s0.
      destruct (ws_deliver TIME_WINDOW h evs Resolved s0) as [sx px].
      cbn [fst snd] in *. subst px. reflexivity. }
    destruct k; cbn [session]; rewrite Hatt; reflexivity.
Qed.

(** X19.  A recorded request is never forgotten, and the metadata
    request is sent only while none is recorded: from a loader with a
    recorded request, no seek, inbound message or retry session clears
    it, and a session, however its sockets behave, never asks for
    metadata again. *)
Theorem X19_recorded_request_persists {B Str : Type} `{XvizStreamBuffer B Str}
    (TIME_WINDOW : Z) (clampTime : option Message -> Z -> Z) (s : Loader B Str) :
  lastRequest s <> None ->
  (forall t, lastRequest (fst (seek TIME_WINDOW clampTime t s)) <> None) /\
  (forall m, lastRequest (fst (_onWSMessage TIME_WINDOW m s)) <> None) /\
  (forall (k h : nat) (transport : nat -> option (list WsEvent)),
      lastRequest (fst (session TIME_WINDOW k transport h s)) <> None /\
      count is_metadata_request (log (fst (session TIME_WINDOW k transport h s)))
      = count is_metadata_request (log s)).
Proof.
  intros Hl. split; [|split].
  - intros t. rewrite seek_lastRequest.
    destruct (seek_issues _ _ _ _); [discriminate | exact Hl].
  - intros m. apply onmessage_lastRequest, Hl.
  - intros k h transport. apply session_lastRequest, Hl.
Qed.

(** [playing], closed and reconnected on a socket that opens. *)
Lemma X19_recorded_request_persists_witness :
  count is_metadata_request
    (log (fst (session 2 3 (fun _ => Some [OnOpen]) 1 (close Scenario.playing))))
  = count is_metadata_request (log (close Scenario.playing)).
Proof.
  destruct (X19_recorded_request_persists 2 Scenario.clampTime (close Scenario.playing))
    as (_ & _ & W).
  - discriminate.
  - apply W.
Defined.

(** X20.  Reconnect replays the recorded window: when a seek on a
    closed loader needs data and the next socket opens, the play
    directive sent on it is the recorded request, whose timestamp is
    the buffer start time [t - TIME_WINDOW] of that seek. *)
Theorem X20_reconnect_replays_seek {B Str : Type} `{XvizStreamBuffer B Str}
    (TIME_WINDOW : Z) (clampTime : option Message -> Z -> Z)
    (t : Z) (s : Loader B Str) (k h : nat) (transport : nat -> option (list WsEvent)) :
  socket s = None ->
  seek_issues TIME_WINDOW clampTime t s = true ->
  transport h = Some [OnOpen] ->
  let s1 := fst (seek TIME_WINDOW clampTime t s) in
  let r := session TIME_WINDOW k transport h s1 in
  snd (seek TIME_WINDOW clampTime t s) = Normal /\
  snd r = Connected /\
  socket (fst r) = Some h /\
  exists l,
    log (fst r)
    = l ++ [HandlerPlay h
              (with_timestamp (seek_plan TIME_WINDOW clampTime t s)
                 (Num (clampTime (st_metadata s) t - TIME_WINDOW)))].
Proof.
  intros Hsock Hi Htr s1 r.
  assert (Hl1 : lastRequest s1
                = Some (with_timestamp (seek_plan TIME_WINDOW clampTime t s)
                          (Num (clampTime (st_metadata s) t - TIME_WINDOW)))).
  { subst s1. rewrite seek_lastRequest, Hi. reflexivity. }
  assert (Hn : snd (seek TIME_WINDOW clampTime t s) = Normal).
  { rewrite seek_by_cases, Hi. cbv zeta.
    destruct (after_prune_frame clampTime t s) as (Hso1 & _). cbv zeta in Hso1.
    unfold isOpen, connect, close. cbn. rewrite Hso1, Hsock. cbn.
    rewrite Hso1, Hsock. reflexivity. }
  destruct (session_recovers TIME_WINDOW transport 0 k h s1) as (l & Hses & _).
  { lia. }
  { split; [intros i Hi0; lia | rewrite Nat.add_0_r; exact Htr]. }
  subst r. rewrite Hses. rewrite Nat.add_0_r. unfold _onWSOpen. cbn.
  rewrite Hl1. cbn. repeat split; try assumption.
  eexists. reflexivity.
Qed.

(** [ready], closed, sought to [100] and reconnected. *)
Lemma X20_reconnect_replays_seek_witness :
  snd (session 2 3 (fun _ => Some [OnOpen]) 1
         (fst (seek 2 Scenario.clampTime 100 (close Scenario.ready))))
  = Connected.
Proof.
  destruct (X20_reconnect_replays_seek 2 Scenario.clampTime 100 (close Scenario.ready)
              3 1 (fun _ => Some [OnOpen])) as (_ & W & _).
  - reflexivity.
  - vm_compute. reflexivity.
  - reflexivity.
  - exact W.
Defined.

Section ReadyInvariant.

Context {B Str : Type} `{XvizStreamBuffer B Str}.
Variable TIME_WINDOW : Z.

Lemma onmessage_handler (m : Message) (s : Loader B Str) :
  xvizHandler (fst (_onWSMessage TIME_WINDOW m s)) = xvizHandler s.
Proof.
  unfold _onWSMessage, handler_play. destruct (type m); try reflexivity.
  - destruct (st_metadata s); [reflexivity|].
    cbn -[updateSocketRequestParams].
    destruct (xvizHandler s) eqn:Ex; cbn -[updateSocketRequestParams];
      rewrite ?Ex; reflexivity.
  - cbn. destruct (_ =? _); [reflexivity|]. cbn.
    destruct (st_logSynchronizer s); reflexivity.
Qed.

Lemma ws_deliver_ready (h : nat) :
  forall (evs : list WsEvent) (p : Settlement) (s : Loader B Str),
    handler_ready s -> handler_ready (fst (ws_deliver TIME_WINDOW h evs p s)).
Proof.
  induction evs as [|ev evs IH]; intros p s Hr; cbn [ws_deliver]; [exact Hr|].
  destruct ev as [|[m|]| |c].
  - apply IH. unfold handler_ready, _onWSOpen. cbn.
    destruct (lastRequest s); discriminate.
  - apply IH. unfold handler_ready. rewrite onmessage_socket, onmessage_handler.
    exact Hr.
  - apply IH. exact Hr.
  - apply IH. exact Hr.
  - destruct p; exact Hr.
Qed.

Lemma session_ready (transport : nat -> option (list WsEvent)) :
  forall (k h : nat) (s : Loader B Str),
    handler_ready s -> handler_ready (fst (session TIME_WINDOW k transport h s)).
Proof.
  assert (Hatt : forall h (s : Loader B Str),
             handler_ready s ->
             handler_ready (fst (attempt TIME_WINDOW h (transport h) s))).
  { intros h s Hr. unfold attempt. destruct (transport h) as [evs|].
    - apply ws_deliver_ready. exact Hr.
    - exact Hr. }
  induction k as [|k IH]; intros h s Hr; cbn [session];
    specialize (Hatt h s Hr);
    destruct (attempt TIME_WINDOW h (transport h) s) as [s1 [ | | | ]];
    cbn [fst snd] in *; try assumption.
  apply IH. exact Hatt.
Qed.

End ReadyInvariant.

(** X21.  Every recorded socket has its controller: this holds for a
    newly constructed loader and is kept by [close], [connect], every
    inbound message and every retry session, whatever the transport
    does ([seek] keeps it too, see X7). *)
Theorem X21_socket_has_controller {B Str : Type} `{XvizStreamBuffer B Str}
    (TIME_WINDOW : Z) :
  (forall (options : Options) (s : Loader B Str),
      new_loader options = Some s -> handler_ready s) /\
  (forall s : Loader B Str,
      handler_ready s ->
      handler_ready (close s) /\
      handler_ready (fst (connect s)) /\
      (forall m, handler_ready (fst (_onWSMessage TIME_WINDOW m s))) /\
      (forall k h transport,
          handler_ready (fst (session TIME_WINDOW k transport h s)))).
Proof.
  split.
  - intros options s Hnew. unfold new_loader in Hnew.
    destruct (getSocketRequestParams options); [|discriminate].
    injection Hnew as <-. intros Hs. contradiction.
  - intros s Hr. split; [|split; [|split]].
    + unfold handler_ready, close. destruct (socket s); [cbn; contradiction | exact Hr].
    + unfold connect. destruct (socket s) eqn:Es; [exact Hr|].
      unfold handler_ready. cbn. rewrite Es. contradiction.
    + intros m. unfold handler_ready. rewrite onmessage_socket, onmessage_handler.
      exact Hr.
    + intros k h transport. apply session_ready. exact Hr.
Qed.

(** X22.  [connect] fails fast: with a socket recorded it throws its
    assertion and leaves the loader untouched; without one it starts a
    session.  [close] records no socket afterwards, tells the socket to
    close only if there was one, and closing twice is closing once; so
    [connect] after [close] never throws. *)
Theorem X22_connect_and_close {B Str : Type} `{XvizStreamBuffer B Str}
    (s : Loader B Str) :
  (connect s = (s, Thrown AssertionError) <-> socket s <> None) /\
  (snd (connect s) = Normal <-> socket s = None) /\
  socket (close s) = None /\
  close (close s) = close s /\
  log (close s)
  = log s ++ match socket s with Some h => [SocketClose h] | None => [] end /\
  lastRequest (close s) = lastRequest s /\
  snd (connect (close s)) = Normal.
Proof.
  assert (Hclosed : socket (close s) = None).
  { unfold close. destruct (socket s) eqn:Es; [reflexivity | exact Es]. }
  split; [|split; [|split; [|split; [|split; [|split]]]]].
  - unfold connect. destruct (socket s) eqn:Es.
    + split; [discriminate | reflexivity].
    + split; [|contradiction]. intros Heq. injection Heq as Heq.
      apply (f_equal (fun x => List.length (log x))) in Heq. cbn in Heq.
      rewrite !length_app in Heq. cbn in Heq. lia.
  - unfold connect. destruct (socket s) eqn:Es; cbn; split; congruence.
  - exact Hclosed.
  - unfold close at 1. rewrite Hclosed. reflexivity.
  - unfold close. destruct (socket s); cbn; [reflexivity | symmetry; apply app_nil_r].
  - unfold close. destruct (socket s); reflexivity.
  - unfold connect. rewrite Hclosed. reflexivity.
Qed.
